(** * API document generator: the properties loader, the hierarchy index
      and the document renderer of [backend/logic.py]

    The development embeds the Python code of [backend/logic.py] as Rocq
    functions and proves the properties its specification states.

    Conventions of the embedding.
    - A Python [str] is a Rocq [string] holding its UTF-8 encoding.  Equality,
      concatenation, search for an ASCII character and replacement of an
      ASCII pattern agree on both sides, and the byte order of UTF-8 is the
      code point order Python compares with.
    - A Python exception is a value of [exn]; code that may raise returns a
      [res].
    - A [dict] is a [gmap]; a pandas frame is the list of its rows.
    - The data source, the files and python-docx are outside the code: a run
      is given their answers, and the document is the list of the blocks the
      code appends, cell texts only.
    - Logging is left out, except for the handler that takes an exception. *)

From Stdlib Require Import ZArith Ascii String List Bool Lia DecimalString Sorted.
From stdpp Require Import base option list strings gmap.

Open Scope string_scope.
Open Scope Z_scope.

(** ** Exceptions *)

Inductive exn : Type :=
  | FileNotFoundError
  | OSError
  | ValueError
  | TypeError
  | OverflowError
  | KeyError
  | DatabaseError          (* pyodbc.Error *)
  | PackageNotFoundError.  (* python-docx, template missing *)

Inductive res (A : Type) : Type :=
  | Ok (a : A)
  | Raise (e : exn).
Arguments Ok {A} a.
Arguments Raise {A} e.

#[global] Instance res_ret : MRet res := fun _ a => Ok a.
#[global] Instance res_bind : MBind res := fun _ _ f m =>
  match m with
  | Ok a => f a
  | Raise e => Raise e
  end.

(** [for x in xs: ...] over a body that may raise, collecting results. *)
Fixpoint for_each {A B : Type} (f : A -> res B) (xs : list A) : res (list B) :=
  match xs with
  | [] => Ok []
  | x :: xs' => y ← f x; ys ← for_each f xs'; Ok (y :: ys)
  end.

(** ** Python strings *)

Module PyStr.

Definition byte (n : N) : ascii := ascii_of_N n.
Definition code (c : ascii) : N := N_of_ascii c.

(** ASCII white space of [str.isspace]: TAB..CR, FS..US and SPACE. *)
Definition ascii_space (c : ascii) : bool :=
  let n := code c in
  ((9 <=? n) && (n <=? 13) || (28 <=? n) && (n <=? 32))%N.

(** White space encoded on two bytes: U+0085 and U+00A0. *)
Definition space2 (c1 c2 : ascii) : bool :=
  ((code c1 =? 194) && ((code c2 =? 133) || (code c2 =? 160)))%N.

(** White space encoded on three bytes: U+1680, U+2000..U+200A, U+2028,
    U+2029, U+202F, U+205F and U+3000. *)
Definition space3 (c1 c2 c3 : ascii) : bool :=
  let a := code c1 in let b := code c2 in let c := code c3 in
  ((a =? 225) && (b =? 154) && (c =? 128)
   || (a =? 226) && (b =? 128)
        && ((128 <=? c) && (c <=? 138) || (c =? 168) || (c =? 169) || (c =? 175))
   || (a =? 226) && (b =? 129) && (c =? 159)
   || (a =? 227) && (b =? 128) && (c =? 128))%N.

(** [s.lstrip()] *)
Fixpoint lstrip (s : string) : string :=
  match s with
  | EmptyString => EmptyString
  | String c1 s1 =>
      if ascii_space c1 then lstrip s1
      else match s1 with
           | String c2 s2 =>
               if space2 c1 c2 then lstrip s2
               else match s2 with
                    | String c3 s3 => if space3 c1 c2 c3 then lstrip s3 else s
                    | EmptyString => s
                    end
           | EmptyString => s
           end
  end.

(** The string holds white space only. *)
Definition blank (s : string) : bool :=
  match lstrip s with EmptyString => true | _ => false end.

(** [s.rstrip()]: cut at the first position from which only white space
    follows. *)
Fixpoint rstrip (s : string) : string :=
  match s with
  | EmptyString => EmptyString
  | String c s' => if blank s then EmptyString else String c (rstrip s')
  end.

(** [s.strip()] *)
Definition strip (s : string) : string := rstrip (lstrip s).

(** [s.startswith(p)] *)
Fixpoint startswith (p s : string) : bool :=
  match p, s with
  | EmptyString, _ => true
  | String a p', String b s' => if ascii_dec a b then startswith p' s' else false
  | String _ _, EmptyString => false
  end.

(** [c in s] for a one-character [c]. *)
Fixpoint contains (c : ascii) (s : string) : bool :=
  match s with
  | EmptyString => false
  | String b s' => if ascii_dec c b then true else contains c s'
  end.

(** [s.split(c, 1)] for a one-character separator: one piece when [c] does
    not occur, else the text before and the text after its first
    occurrence. *)
Fixpoint split1 (c : ascii) (s : string) : list string :=
  match s with
  | EmptyString => [EmptyString]
  | String b s' =>
      if ascii_dec c b then [EmptyString; s']
      else match split1 c s' with
           | [k; v] => [String b k; v]
           | _ => [s]
           end
  end.

(** [s.replace(old, new)] for a non-empty [old]: occurrences are replaced
    from left to right and do not overlap.  [skip] counts the characters of
    a matched occurrence that are still to be passed over. *)
Fixpoint replace_from (old new : string) (skip : nat) (s : string) : string :=
  match s with
  | EmptyString => EmptyString
  | String c s' =>
      match skip with
      | S k => replace_from old new k s'
      | O =>
          if startswith old s
          then new +:+ replace_from old new (Nat.pred (String.length old)) s'
          else String c (replace_from old new O s')
      end
  end.

Definition replace (old new s : string) : string := replace_from old new O s.

(** [for line in f]: the lines of a text, each with its line end. *)
Fixpoint readlines (s : string) : list string :=
  match s with
  | EmptyString => []
  | String c s' =>
      if ascii_dec c (byte 10) then String c EmptyString :: readlines s'
      else match readlines s' with
           | [] => [String c EmptyString]
           | l :: ls => String c l :: ls
           end
  end.

End PyStr.

(** ** Python values *)

(** A float is a finite dyadic number [m * 2^e], an infinity or NaN. *)
Inductive pyfloat : Type :=
  | FFinite (m e : Z)
  | FInf (negative : bool)
  | FNan.

(** The value of a cell of a frame, as pandas gives it for the columns of the
    queries: [None] for SQL NULL, an integer, a float (NaN included) or a
    text. *)
Inductive value : Type :=
  | VNone
  | VInt (z : Z)
  | VFloat (f : pyfloat)
  | VStr (s : string).

(** [str(z)] for an [int]. *)
Definition dec (z : Z) : string := NilZero.string_of_int (Z.to_int z).

(** [f.is_integer()] *)
Definition is_integer (f : pyfloat) : bool :=
  match f with
  | FFinite m e => if 0 <=? e then true else m mod 2 ^ (- e) =? 0
  | FInf _ | FNan => false
  end.

(** [int(f)] for a float: truncation towards zero. *)
Definition int_of_float (f : pyfloat) : res Z :=
  match f with
  | FFinite m e => Ok (if 0 <=? e then m * 2 ^ e else m ÷ 2 ^ (- e))
  | FInf _ => Raise OverflowError
  | FNan => Raise ValueError
  end.

(** [float(z)] for an [int]: the nearest double, ties to even; too large an
    integer raises [OverflowError]. *)
Definition float_of_int (z : Z) : res pyfloat :=
  let a := Z.abs z in
  if a <? 2 ^ 53 then Ok (FFinite z 0)
  else
    let sh := Z.log2 a - 52 in
    let q := Z.shiftr a sh in
    let r := a mod 2 ^ sh in
    let half := 2 ^ (sh - 1) in
    let q' := if (half <? r) || ((r =? half) && Z.odd q) then q + 1 else q in
    if 2 ^ 1024 <=? q' * 2 ^ sh then Raise OverflowError
    else Ok (FFinite (Z.sgn z * q') sh).

(** The parts of the Python runtime the code calls and this development
    leaves open: the printing of a float and the parsing of a string by
    [float()] and [int()] ([None] stands for their [ValueError]).  The
    printing of a float is never blank. *)
Class PyRuntime : Type := {
  float_str : pyfloat -> string;
  parse_float : string -> option pyfloat;
  parse_int : string -> option Z;
  float_str_not_blank : forall f, PyStr.strip (float_str f) <> EmptyString
}.

Section Values.
Context {rt : PyRuntime}.

(** [str(v)] *)
Definition py_str (v : value) : string :=
  match v with
  | VNone => "None"
  | VInt z => dec z
  | VFloat f => float_str f
  | VStr s => s
  end.

(** [float(v)] *)
Definition py_float (v : value) : res pyfloat :=
  match v with
  | VNone => Raise TypeError
  | VInt z => float_of_int z
  | VFloat f => Ok f
  | VStr s => match parse_float s with Some f => Ok f | None => Raise ValueError end
  end.

(** [int(v)] *)
Definition py_int (v : value) : res Z :=
  match v with
  | VNone => Raise TypeError
  | VInt z => Ok z
  | VFloat f => int_of_float f
  | VStr s => match parse_int s with Some z => Ok z | None => Raise ValueError end
  end.

(** [pd.notna(v)]: [None] and NaN are missing. *)
Definition notna (v : value) : bool :=
  match v with
  | VNone | VFloat FNan => false
  | _ => true
  end.

End Values.

(** ** Constants of [logic.py] *)

Definition DEFAULT_NAN_DISPLAY : string := "NaN".
Definition DEFAULT_SQL_NOT_FOUND : string := " 查無對應 SQL".
Definition API_FLOW_PREFIX : string := "FI_%".

(** ** [load_sql_properties] *)

(** What [open(path, 'r', encoding='utf-8')] and the reading find at the
    path: no file, a failure of another kind, or a text (decoded, with line
    ends translated to a line feed). *)
Inductive file : Type :=
  | NoSuchFile
  | Unreadable (e : exn)
  | Text (s : string).

(** The body of the loop over the lines, on the dictionary built so far. *)
Definition load_line (sql_dict : gmap string string) (line : string)
  : res (gmap string string) :=
  if PyStr.contains "=" line && negb (PyStr.startswith "#" (PyStr.strip line)) then
    match PyStr.split1 "=" line with
    | [key; val] => Ok (<[PyStr.strip key := PyStr.strip val]> sql_dict)
    | _ => Raise ValueError   (* unpacking into [key, val] *)
    end
  else Ok sql_dict.

Fixpoint load_lines (sql_dict : gmap string string) (lines : list string)
  : res (gmap string string) :=
  match lines with
  | [] => Ok sql_dict
  | line :: rest => d ← load_line sql_dict line; load_lines d rest
  end.

(** Both handlers log and raise again what they caught. *)
Definition load_sql_properties (f : file) : res (gmap string string) :=
  match f with
  | NoSuchFile => Raise FileNotFoundError
  | Unreadable e => Raise e
  | Text s => load_lines ∅ (PyStr.readlines s)
  end.

(** ** Frames *)

(** A cell of a key column ([批次代碼], [批次說明], [API代碼]): a text, or
    [None] for SQL NULL. *)
Definition key_value (k : option string) : value :=
  match k with Some s => VStr s | None => VNone end.

(** [column == k], element by element: a missing value equals nothing. *)
Definition key_eq (cell k : option string) : bool :=
  match cell, k with
  | Some a, Some b => bool_decide (a = b)
  | _, _ => false
  end.

(** A row of one of the five category results: its [API代碼] and its other
    columns by name. *)
Record Row : Type := {
  row_code : option string;
  row_cells : gmap string value
}.

Abbreviation Frame := (list Row).

(** The cell of a row under a column name, if the frame has the column. *)
Definition row_lookup (r : Row) (col : string) : option value :=
  if decide (col = "API代碼") then Some (key_value (row_code r))
  else row_cells r !! col.

(** A row of the batch/API ordering result. *)
Record HRow : Type := {
  h_batch_code : option string;   (* 批次代碼 *)
  h_batch_desc : option string;   (* 批次說明 *)
  h_seq : value;                  (* API順序 *)
  h_api_code : option string;     (* API代碼 *)
  h_api_desc : value              (* API說明 *)
}.

(** [.unique()] and [.drop_duplicates()]: the first occurrence of each
    element, in the order of appearance. *)
Fixpoint unique_from {A : Type} `{EqDecision A} (seen l : list A) : list A :=
  match l with
  | [] => []
  | x :: l' =>
      if bool_decide (x ∈ seen) then unique_from seen l'
      else x :: unique_from (x :: seen) l'
  end.

Definition unique {A : Type} `{EqDecision A} (l : list A) : list A :=
  unique_from [] l.

(** [.dropna()] on a key column. *)
Definition dropna (col : list (option string)) : list string := omap id col.

(** ** The hierarchy index *)

(** [df[df['API代碼'] == api_code]] *)
Definition rows_of (df : Frame) (api_code : string) : Frame :=
  List.filter (fun r => key_eq (row_code r) (Some api_code)) df.

(** One turn of the loop of [populate_api_data]. *)
Definition populate_code (df : Frame) (sheet_name : string)
    (api_data : gmap string (gmap string Frame)) (api_code : string)
  : gmap string (gmap string Frame) :=
  let api_data' :=
    match api_data !! api_code with
    | None => <[api_code := ∅]> api_data
    | Some _ => api_data
    end in
  <[api_code := <[sheet_name := rows_of df api_code]>
                  (default ∅ (api_data' !! api_code))]> api_data'.

Definition populate_api_data (df : Frame) (sheet_name : string)
    (api_data : gmap string (gmap string Frame))
  : gmap string (gmap string Frame) :=
  foldl (populate_code df sheet_name) api_data
        (unique (dropna (map row_code df))).

(** The five calls, in the order of the code. *)
Definition sheets (api_list output ip ws param : Frame) : list (string * Frame) :=
  [("API清單", api_list); ("輸出設定", output); ("IP權限設定", ip);
   ("WebService", ws); ("參數驗證", param)].

Definition build_api_data (api_list output ip ws param : Frame)
  : gmap string (gmap string Frame) :=
  foldl (fun api_data '(sheet_name, df) => populate_api_data df sheet_name api_data)
        ∅ (sheets api_list output ip ws param).

(** ** The document *)

(** What the code appends to the template: paragraphs and tables.  A table
    is its header row and its data rows, cell texts only; widths and shading
    are left out. *)
Inductive block : Type :=
  | Paragraph (style : option string) (text : string)
  | Table (header : list string) (rows : list (list string)).

Abbreviation document := (list block).

Definition is_table (b : block) : bool :=
  match b with Table _ _ => true | Paragraph _ _ => false end.

Definition tables (doc : document) : list block := List.filter is_table doc.

(** The texts of the paragraphs of a style. *)
Definition headings (style : string) (doc : document) : list string :=
  omap (fun b => match b with
                 | Paragraph (Some st) text =>
                     if bool_decide (st = style) then Some text else None
                 | _ => None
                 end) doc.

(** ** The renderer *)

Section Renderer.
Context {rt : PyRuntime}.

(** [pd.notna(v) and str(v).strip() != ''] *)
Definition present (v : value) : bool :=
  notna v && bool_decide (PyStr.strip (py_str v) ≠ EmptyString).

(** [str(v) if pd.notna(v) and str(v).strip() != '' else DEFAULT_NAN_DISPLAY] *)
Definition display (v : value) : string :=
  if present v then py_str v else DEFAULT_NAN_DISPLAY.

(** The [順序] cell of the batch table, from the [API順序] of the row:
    [str(int(v)) if pd.notna(v) and float(v).is_integer() else
    DEFAULT_NAN_DISPLAY]. *)
Definition api_seq_cell (seq_val : value) : res string :=
  whole ← (if notna seq_val then f ← py_float seq_val; Ok (is_integer f)
           else Ok false);
  if whole : bool then z ← py_int seq_val; Ok (dec z)
  else Ok DEFAULT_NAN_DISPLAY.

Definition api_list_headers : list string := ["順序"; "API代碼"; "API說明"].

(** The data rows of the batch table. *)
Definition api_list_rows (group_df : list HRow) : res (list (list string)) :=
  match group_df with
  | [] => Ok [[DEFAULT_NAN_DISPLAY; DEFAULT_NAN_DISPLAY; DEFAULT_NAN_DISPLAY]]
  | _ =>
      for_each (fun api_row =>
        c0 ← api_seq_cell (h_seq api_row);
        Ok [c0; display (key_value (h_api_code api_row)); display (h_api_desc api_row)])
        group_df
  end.

Definition headers_api_list : list string := ["序"; "參數"; "設定值"].

Definition param_names : list string :=
  ["API代碼"; "API簡述"; "API說明"; "API行為類型"; "資料庫連線名稱";
   "執行類型"; "語法設定鍵值"; "驗證金鑰"; "是否編碼"; "語法"].

Definition NL : string := String (PyStr.byte 10) EmptyString.
Definition TAB : string := String (PyStr.byte 9) EmptyString.

(** [raw.replace('\\n', '\n').replace('\\t', '\t').replace('\\=', '=')] *)
Definition decode_escapes (raw_value : string) : string :=
  PyStr.replace "\=" "="
    (PyStr.replace "\t" TAB
       (PyStr.replace "\n" NL raw_value)).

(** The value of the [語法] row: [first] is [api_df.iloc[0]]. *)
Definition syntax_value (sql_map : gmap string string) (first : Row) : res string :=
  match row_lookup first "語法設定鍵值" with
  | None => Raise KeyError
  | Some config_key_val =>
      if present config_key_val then
        let raw_value :=
          default DEFAULT_SQL_NOT_FOUND (sql_map !! py_str config_key_val) in
        Ok (decode_escapes raw_value)
      else Ok DEFAULT_NAN_DISPLAY
  end.

(** The third cell of a row of the detail table.  The frame is rectangular,
    so [param in api_df.columns] is asked of its first row. *)
Definition detail_value (sql_map : gmap string string) (first : Row)
    (param : string) : res string :=
  if decide (param = "語法") then syntax_value sql_map first
  else match row_lookup first param with
       | Some val_from_df => Ok (display val_from_df)
       | None => Ok DEFAULT_NAN_DISPLAY
       end.

(** [enumerate(l, start=i)] *)
Fixpoint enumerate {A : Type} (i : Z) (l : list A) : list (Z * A) :=
  match l with
  | [] => []
  | x :: l' => (i, x) :: enumerate (i + 1) l'
  end.

(** The data rows of the detail table of an API. *)
Definition detail_rows (sql_map : gmap string string) (api_df : option Frame)
  : res (list (list string)) :=
  match api_df with
  | Some (first :: _) =>
      for_each (fun '(i, param) =>
        value_to_display ← detail_value sql_map first param;
        Ok [dec i; param; value_to_display])
        (enumerate 1 param_names)
  | _ => Ok [[DEFAULT_NAN_DISPLAY; DEFAULT_NAN_DISPLAY; DEFAULT_NAN_DISPLAY]]
  end.

Definition section_order : list (string * list string) :=
  [("參數驗證", ["序"; "屬性名"; "預設值"; "說明"]);
   ("WebService", ["序"; "主機代碼"; "主機名稱"; "主機IP"; "啟用"]);
   ("IP權限設定", ["IP"; "說明"]);
   ("輸出設定", ["節點階層"; "父階層關聯鍵值"; "子階層關聯鍵值"; "輸出參數"])].

(** [str(int(value)) if float(value).is_integer() else str(value)] *)
Definition int_or_str (v : value) : res string :=
  f ← py_float v;
  if is_integer f then z ← py_int v; Ok (dec z) else Ok (py_str v).

(** A cell of a sub-section table; only [ValueError] is handled. *)
Definition section_cell (header : string) (v : value) : res string :=
  if present v then
    if bool_decide (header ∈ ["序"; "節點階層"]) then
      match int_or_str v with
      | Raise ValueError => Ok (py_str v)
      | r => r
      end
    else Ok (py_str v)
  else Ok DEFAULT_NAN_DISPLAY.

(** [row_data.get(header, '')] *)
Definition row_get (row_data : Row) (header : string) : value :=
  default (VStr EmptyString) (row_lookup row_data header).

(** The data rows of a sub-section table. *)
Definition section_rows (headers : list string) (df : option Frame)
  : res (list (list string)) :=
  match df with
  | Some ((_ :: _) as rows) =>
      for_each (fun row_data =>
        for_each (fun header => section_cell header (row_get row_data header))
                 headers)
        rows
  | _ => Ok [List.map (fun _ => DEFAULT_NAN_DISPLAY) headers]
  end.

(** [api_data.get(api_code, {}).get(sheet_name)] *)
Definition sheet_of (api_data : gmap string (gmap string Frame))
    (api_code sheet_name : string) : option Frame :=
  default ∅ (api_data !! api_code) !! sheet_name.

Definition blank_paragraph : block := Paragraph None EmptyString.

(** The heading, table and spacer of one sub-section of an API. *)
Definition section_blocks (api_data : gmap string (gmap string Frame))
    (api_code : string) (sec : string * list string) : res (list block) :=
  let '(sheet_name, headers) := sec in
  rows ← section_rows headers (sheet_of api_data api_code sheet_name);
  Ok [Paragraph (Some "Heading 5") sheet_name; Table headers rows; blank_paragraph].

(** The heading and detail table of an API. *)
Definition detail_blocks (sql_map : gmap string string)
    (api_data : gmap string (gmap string Frame)) (api_code : string)
  : res (list block) :=
  rows ← detail_rows sql_map (sheet_of api_data api_code "API清單");
  Ok [Paragraph (Some "Heading 4") api_code; Table headers_api_list rows;
      blank_paragraph].

(** The body of the loop over the APIs of a batch; a row with a missing or
    blank code is passed over. *)
Definition api_blocks (sql_map : gmap string string)
    (api_data : gmap string (gmap string Frame)) (api_row : HRow)
  : res (list block) :=
  match h_api_code api_row with
  | None => Ok []
  | Some api_code =>
      if bool_decide (PyStr.strip api_code = EmptyString) then Ok []
      else
        detail ← detail_blocks sql_map api_data api_code;
        secs ← for_each (section_blocks api_data api_code) section_order;
        Ok (detail ++ concat secs)%list
  end.

(** The rows of a batch, in the order of the ordering result. *)
Definition group_of (api_hierarchy_df : list HRow)
    (batch : option string * option string) : list HRow :=
  List.filter (fun r => key_eq (h_batch_code r) batch.1
                        && key_eq (h_batch_desc r) batch.2)
              api_hierarchy_df.

(** [f'{batch_code} ({batch_desc})'] *)
Definition batch_heading (batch : option string * option string) : string :=
  py_str (key_value batch.1) +:+ " (" +:+ py_str (key_value batch.2) +:+ ")".

(** The body of the loop over the batches. *)
Definition batch_blocks (api_hierarchy_df : list HRow)
    (sql_map : gmap string string) (api_data : gmap string (gmap string Frame))
    (batch : option string * option string) : res (list block) :=
  let group_df := group_of api_hierarchy_df batch in
  rows ← api_list_rows group_df;
  apis ← for_each (api_blocks sql_map api_data) group_df;
  Ok ([Paragraph (Some "Heading 2") (batch_heading batch);
       Table api_list_headers rows; blank_paragraph] ++ concat apis)%list.

(** Ascending order of the descriptions, the missing ones last. *)
Definition desc_le (a b : option string) : bool :=
  match a, b with
  | _, None => true
  | None, Some _ => false
  | Some x, Some y => String.leb x y
  end.

Fixpoint insert_batch (x : option string * option string)
    (l : list (option string * option string)) :=
  match l with
  | [] => [x]
  | y :: l' => if desc_le x.2 y.2 then x :: l else y :: insert_batch x l'
  end.

(** [.sort_values(by=['批次說明'])].  The order pandas leaves among equal
    descriptions is not fixed by its interface; here they keep their order of
    appearance. *)
Definition sort_values (l : list (option string * option string)) :=
  foldr insert_batch [] l.

(** [api_hierarchy_df[['批次代碼', '批次說明']].drop_duplicates()
    .sort_values(by=['批次說明'])] *)
Definition batch_list_of (api_hierarchy_df : list HRow)
  : list (option string * option string) :=
  sort_values
    (unique (map (fun r => (h_batch_code r, h_batch_desc r)) api_hierarchy_df)).

(** What the loop over the batches appends to the template. *)
Definition render (api_hierarchy_df : list HRow) (sql_map : gmap string string)
    (api_data : gmap string (gmap string Frame)) : res (list block) :=
  bs ← for_each (batch_blocks api_hierarchy_df sql_map api_data)
                (batch_list_of api_hierarchy_df);
  Ok (concat bs).

End Renderer.

(** ** [generate_api_doc] *)

(** [sql_connection_params], with the four keys the caller always gives. *)
Record ConnParams : Type := {
  server : string;
  database : string;
  username : string;
  password : string
}.

(** The six queries, in the order the code sends them, and a seventh. *)
Inductive query : Type :=
  | QRelevant | QHierarchy | QApiList | QOutput | QIp | QWs | QParam.

(** What the data source answers: to the connection, and to each query. *)
Record DataSource : Type := {
  ds_connect : res unit;
  ds_relevant : res (list (option string));   (* column CALL_CODE_ID *)
  ds_hierarchy : res (list HRow);
  ds_api_list : res Frame;
  ds_output : res Frame;
  ds_ip : res Frame;
  ds_ws : res Frame;
  ds_param : res Frame
}.

(** The arguments of a run and what it finds outside. *)
Record Env : Type := {
  e_params : ConnParams;
  e_template_path : string;
  e_output_path : string;
  e_props_path : string;
  e_db : DataSource;
  e_props : file;                (* at [e_props_path] *)
  e_template : res document;     (* [Document(word_template_path)] *)
  e_save : res unit              (* [doc.save(output_path)] *)
}.

(** The clause of the [try] statement that handles an exception. *)
Inductive handler : Type := HDatabase | HFileNotFound | HException.

(** The calls a run makes to the outside. *)
Inductive event : Type :=
  | EvConnect (conn_str : string)
  | EvQuery (q : query)
  | EvLoadProperties (path : string)
  | EvOpenTemplate (path : string)
  | EvSave (path : string) (doc : document)
  | EvLogError (h : handler)
  | EvClose.

(** The state of a run: the local variable [conn] (set or [None]), the number
    of connections open at the data source, and the calls made so far. *)
Record State : Type := {
  conn : bool;
  open_connections : nat;
  trace : list event
}.

Definition M (A : Type) : Type := State -> res A * State.

#[global] Instance M_ret : MRet M := fun _ a s => (Ok a, s).
#[global] Instance M_bind : MBind M := fun _ _ f m s =>
  match m s with
  | (Ok a, s') => f a s'
  | (Raise e, s') => (Raise e, s')
  end.

Definition emit (ev : event) (s : State) : State :=
  {| conn := conn s; open_connections := open_connections s;
     trace := (trace s ++ [ev])%list |}.

(** An outside call with a given outcome. *)
Definition call {A : Type} (ev : event) (outcome : res A) : M A :=
  fun s => (outcome, emit ev s).

(** A computation without effect. *)
Definition lift {A : Type} (r : res A) : M A := fun s => (r, s).

Definition raise {A : Type} (e : exn) : M A := lift (Raise e).

(** [try: body / except ...: handle] *)
Definition try_except {A : Type} (body : M A) (handle : exn -> M A) : M A :=
  fun s =>
    match body s with
    | (Ok a, s') => (Ok a, s')
    | (Raise e, s') => handle e s'
    end.

(** [try: body / finally: final] *)
Definition try_finally {A : Type} (body : M A) (final : M unit) : M A :=
  fun s =>
    let '(r, s') := body s in
    match final s' with
    | (Ok _, s'') => (r, s'')
    | (Raise e, s'') => (Raise e, s'')
    end.

Definition conn_str (p : ConnParams) : string :=
  "DRIVER={ODBC Driver 18 for SQL Server};" +:+
  "SERVER=" +:+ server p +:+ ";" +:+
  "DATABASE=" +:+ database p +:+ ";" +:+
  "UID=" +:+ username p +:+ ";" +:+
  "PWD=" +:+ password p +:+ ";" +:+
  "TrustServerCertificate=yes;".

(** [conn = pyodbc.connect(conn_str)] *)
Definition connect (env : Env) : M unit :=
  fun s =>
    match ds_connect (e_db env) with
    | Ok _ =>
        (Ok (), {| conn := true; open_connections := S (open_connections s);
                   trace := (trace s ++ [EvConnect (conn_str (e_params env))])%list |})
    | Raise e => (Raise e, emit (EvConnect (conn_str (e_params env))) s)
    end.

(** [if conn: conn.close()]; closing does not fail. *)
Definition close_connection : M unit :=
  fun s =>
    if conn s then
      (Ok (), {| conn := conn s; open_connections := Nat.pred (open_connections s);
                 trace := (trace s ++ [EvClose])%list |})
    else (Ok (), s).

Definition NO_DATA_MESSAGE : string :=
  "資料庫中找不到與 '" +:+ API_FLOW_PREFIX +:+ "' 相關的 API 資料。".

Section Orchestrator.
Context {rt : PyRuntime}.

(** The clause that takes an exception: [except pyodbc.Error], then
    [except FileNotFoundError], then [except Exception]. *)
Definition clause_of (e : exn) : handler :=
  match e with
  | DatabaseError => HDatabase
  | FileNotFoundError => HFileNotFound
  | _ => HException
  end.

(** Each clause logs and raises again what it caught. *)
Definition handle (e : exn) : M unit :=
  _ ← call (EvLogError (clause_of e)) (Ok ()); raise e.

(** The document a run with relevant codes builds and saves. *)
Definition full_document (env : Env) : M unit :=
  let db := e_db env in
  api_hierarchy_df ← call (EvQuery QHierarchy) (ds_hierarchy db);
  api_list_df_all ← call (EvQuery QApiList) (ds_api_list db);
  output_setting_df_all ← call (EvQuery QOutput) (ds_output db);
  ip_permission_df_all ← call (EvQuery QIp) (ds_ip db);
  webservice_df_all ← call (EvQuery QWs) (ds_ws db);
  param_validation_df_all ← call (EvQuery QParam) (ds_param db);
  let api_data :=
    build_api_data api_list_df_all output_setting_df_all ip_permission_df_all
                   webservice_df_all param_validation_df_all in
  sql_map ← call (EvLoadProperties (e_props_path env))
                 (load_sql_properties (e_props env));
  doc ← call (EvOpenTemplate (e_template_path env)) (e_template env);
  blocks ← lift (render api_hierarchy_df sql_map api_data);
  call (EvSave (e_output_path env) (doc ++ blocks)%list) (e_save env).

(** The document of a run without relevant codes. *)
Definition no_data_document (env : Env) : M unit :=
  doc ← call (EvOpenTemplate (e_template_path env)) (e_template env);
  call (EvSave (e_output_path env) (doc ++ [Paragraph None NO_DATA_MESSAGE])%list)
       (e_save env).

(** The block under [try]. *)
Definition generate_body (env : Env) : M unit :=
  _ ← connect env;
  codes ← call (EvQuery QRelevant) (ds_relevant (e_db env));
  let relevant_api_codes := unique (dropna codes) in
  match relevant_api_codes with
  | [] => no_data_document env
  | _ :: _ => full_document env
  end.

Definition generate_api_doc (env : Env) : M unit :=
  try_finally (try_except (generate_body env) handle) close_connection.

(** A run starts with [conn = None]. *)
Definition start (open : nat) (calls : list event) : State :=
  {| conn := false; open_connections := open; trace := calls |}.

(** The documents handed to [doc.save], in order. *)
Definition saved (calls : list event) : list document :=
  omap (fun ev => match ev with EvSave _ doc => Some doc | _ => None end) calls.

(** The queries sent, in order. *)
Definition queries_sent (calls : list event) : list query :=
  omap (fun ev => match ev with EvQuery q => Some q | _ => None end) calls.

End Orchestrator.

(** ** A runtime for the examples

    It prints a finite float by its exact decimal expansion (so 2.5 prints as
    [2.5]) and reads plain decimal integers only.  The theorems hold for
    every runtime; this one evaluates the model on concrete inputs. *)

Fixpoint zeros (n : nat) : string :=
  match n with
  | O => EmptyString
  | S n' => String "0" (zeros n')
  end.

(** The [k] decimal digits of [r / 2^k], for [0 <= r < 2^k]. *)
Definition frac_digits (r : Z) (k : Z) : string :=
  let d := dec (r * 5 ^ k) in
  zeros (Z.to_nat k - String.length d) +:+ d.

Definition exact_float_str (f : pyfloat) : string :=
  match f with
  | FFinite m e =>
      if 0 <=? e then dec (m * 2 ^ e) +:+ ".0"
      else
        let a := Z.abs m in
        if m <? 0
        then String "-" (dec (a / 2 ^ (- e)) +:+ "." +:+ frac_digits (a mod 2 ^ (- e)) (- e))
        else dec (a / 2 ^ (- e)) +:+ "." +:+ frac_digits (a mod 2 ^ (- e)) (- e)
  | FInf false => "inf"
  | FInf true => "-inf"
  | FNan => "nan"
  end.

Definition plain_int (s : string) : option Z :=
  match NilZero.int_of_string s with
  | Some d => Some (Z.of_int d)
  | None => None
  end.

Definition plain_float (s : string) : option pyfloat :=
  match plain_int s with
  | Some z => Some (FFinite z 0)
  | None => None
  end.

Definition example_runtime : PyRuntime.
Proof.
  refine {| float_str := exact_float_str;
            parse_float := plain_float;
            parse_int := plain_int;
            float_str_not_blank := _ |}.
  assert (head : forall c s, (PyStr.code c <? 128)%N = true ->
                 PyStr.ascii_space c = false ->
                 PyStr.strip (String c s) <> EmptyString).
  { intros c s Hc Hs. unfold PyStr.strip.
    assert (Hl : PyStr.lstrip (String c s) = String c s).
    { simpl. rewrite Hs.
      assert (H2 : forall c2, PyStr.space2 c c2 = false).
      { intros c2. unfold PyStr.space2.
        destruct (N.eqb_spec (PyStr.code c) 194) as [E|E]; [|reflexivity].
        rewrite E in Hc. discriminate Hc. }
      assert (H3 : forall c2 c3, PyStr.space3 c c2 c3 = false).
      { intros c2 c3. unfold PyStr.space3.
        destruct (N.eqb_spec (PyStr.code c) 225) as [E|_];
          [rewrite E in Hc; discriminate Hc|].
        destruct (N.eqb_spec (PyStr.code c) 226) as [E|_];
          [rewrite E in Hc; discriminate Hc|].
        destruct (N.eqb_spec (PyStr.code c) 227) as [E|_];
          [rewrite E in Hc; discriminate Hc|].
        reflexivity. }
      destruct s as [|c2 [|c3 s3]]; [reflexivity| |].
      - rewrite H2. reflexivity.
      - rewrite H2, H3. reflexivity. }
    rewrite Hl. cbn [PyStr.rstrip]. unfold PyStr.blank. rewrite Hl.
    discriminate. }
  assert (digits : forall z, exists c s, dec z = String c s /\
                   (PyStr.code c <? 128)%N = true /\ PyStr.ascii_space c = false).
  { intros z. unfold dec. destruct (Z.to_int z) as [d|d].
    - destruct d; cbn; eexists _, _; split; try reflexivity; split; reflexivity.
    - cbn. eexists _, _; split; [reflexivity|]. split; reflexivity. }
  intros f. destruct f as [m e|[|]|]; cbn [exact_float_str].
  - destruct (0 <=? e).
    + destruct (digits (m * 2 ^ e)) as (c & s & -> & Hc & Hs). cbn. now apply head.
    + destruct (m <? 0).
      * apply head; reflexivity.
      * destruct (digits (Z.abs m / 2 ^ (- e))) as (c & s & -> & Hc & Hs).
        cbn. now apply head.
  - apply head; reflexivity.
  - apply head; reflexivity.
  - apply head; reflexivity.
Defined.

(** ** Notions of the specification *)

(** A printable ASCII character: neither white space nor part of the encoding
    of a wider character. *)
Definition plain (c : ascii) : Prop := (32 < PyStr.code c < 128)%N.

(** A line the loader passes over. *)
Definition ignored (line : string) : Prop :=
  PyStr.contains "=" line = false \/
  PyStr.startswith "#" (PyStr.strip line) = true.

(** What a line contributes, in the words of the specification: a line that
    is blank after trimming, or whose trimmed form begins with [#], or that
    has no [=], contributes nothing; any other line contributes the text
    before its first [=] and the text after it, both trimmed. *)
Definition line_pair (line : string) : option (string * string) :=
  if bool_decide (PyStr.strip line = EmptyString) then None
  else if PyStr.startswith "#" (PyStr.strip line) then None
  else match PyStr.split1 "=" line with
       | [key; val] => Some (PyStr.strip key, PyStr.strip val)
       | _ => None
       end.

(** The value of the last pair with the key. *)
Fixpoint last_value (k : string) (pairs : list (string * string)) : option string :=
  match pairs with
  | [] => None
  | (k', v) :: rest =>
      match last_value k rest with
      | Some v' => Some v'
      | None => if decide (k = k') then Some v else None
      end
  end.

(** The dictionary a list of pairs leaves, written over [d]. *)
Definition store (d : gmap string string) (pairs : list (string * string)) :=
  foldl (fun m p => <[p.1 := p.2]> m) d pairs.

(** ** Inputs of the examples *)

Definition sample_properties : string :=
  "# key=commented
a = 1
b=x=y
a=2
".

(** One API [A01] in one batch: its descriptor and two parameter rows; no
    row of the other three categories carries its code. *)
Definition sample_descriptor : Row :=
  {| row_code := Some "A01";
     row_cells := {[ "API簡述" := VStr "query"; "API說明" := VStr "lists things";
                     "API行為類型" := VStr "SQL"; "資料庫連線名稱" := VStr "jdbc/main";
                     "執行類型" := VStr "S"; "語法設定鍵值" := VStr "A01.sql";
                     "驗證金鑰" := VStr "DFMDB_authority"; "是否編碼" := VStr "否" ]} |}.

Definition sample_param_rows : Frame :=
  [ {| row_code := Some "A01";
       row_cells := {[ "序" := VInt 1; "屬性名" := VStr "id";
                       "預設值" := VStr ""; "說明" := VStr "key" ]} |};
    {| row_code := Some "A01";
       row_cells := {[ "序" := VFloat (FFinite 2 0); "屬性名" := VStr "name";
                       "預設值" := VNone; "說明" := VStr "" ]} |};
    {| row_code := Some "B02";
       row_cells := {[ "序" := VInt 1; "屬性名" := VStr "x";
                       "預設值" := VStr "0"; "說明" := VStr "" ]} |} ].

Definition sample_api_data : gmap string (gmap string Frame) :=
  build_api_data [sample_descriptor] [] [] [] sample_param_rows.

Definition sample_sql_map : gmap string string :=
  {[ "A01.sql" := "select *\n\tfrom t where a \= 1" ]}.

Definition sample_hierarchy : list HRow :=
  [ {| h_batch_code := Some "FI_02"; h_batch_desc := Some "alpha";
       h_seq := VInt 1; h_api_code := Some "A01"; h_api_desc := VStr "query" |};
    {| h_batch_code := Some "FI_02"; h_batch_desc := Some "alpha";
       h_seq := VFloat (FFinite 2 0); h_api_code := Some "B02"; h_api_desc := VNone |};
    {| h_batch_code := Some "FI_01"; h_batch_desc := Some "beta";
       h_seq := VInt 1; h_api_code := Some "A01"; h_api_desc := VStr "query" |} ].

(** The finite float [f] is the whole number [z]. *)
Definition float_denotes (f : pyfloat) (z : Z) : Prop :=
  match f with
  | FFinite m e => if 0 <=? e then z = m * 2 ^ e else m = z * 2 ^ (- e)
  | FInf _ | FNan => False
  end.

(** The value is the whole number [z]: an integer (one [float()] can take) or
    a float without fractional part. *)
Definition whole_number (v : value) (z : Z) : Prop :=
  (v = VInt z /\ Z.abs z < 2 ^ 1023) \/
  (exists f, v = VFloat f /\ float_denotes f z).

(** The text does not begin with the character. *)
Definition not_starting_with (q : ascii) (rest : string) : Prop :=
  match rest with
  | EmptyString => True
  | String c _ => c <> q
  end.

(** [float()] takes the value when it is an integer. *)
Definition floatable (v : value) : bool :=
  match v with
  | VInt z => Z.abs z <? 2 ^ 1023
  | _ => true
  end.

(** The cells of the frame under the headers are all [floatable]. *)
Definition frame_floatable (headers : list string) (df : Frame) : bool :=
  forallb (fun r => forallb (fun h => floatable (default (VStr EmptyString) (row_lookup r h)))
                            headers) df.

(** The code of an ordering row, when the loop over the APIs does not pass
    the row over. *)
Definition nonblank_code (r : HRow) : option string :=
  match h_api_code r with
  | Some api_code =>
      if bool_decide (PyStr.strip api_code = EmptyString) then None else Some api_code
  | None => None
  end.

(** The data rows of the batch tables of a document, table by table. *)
Definition batch_tables (doc : document) : list (list (list string)) :=
  omap (fun b => match b with
                 | Table header rows =>
                     if bool_decide (header = ["順序"; "API代碼"; "API說明"])
                     then Some rows else None
                 | Paragraph _ _ => None
                 end) doc.




(** A computation that leaves the connection as it is. *)
Definition quiet {A : Type} (m : M A) : Prop :=
  forall s, conn (m s).2 = conn s /\
            open_connections (m s).2 = open_connections s.


(** A run that finds no relevant code, and the same run asked with other
    connection parameters and paths. *)
Definition no_data_env : Env :=
  {| e_params := {| server := "db"; database := "ws"; username := "u"; password := "p" |};
     e_template_path := "template.docx";
     e_output_path := "out.docx";
     e_props_path := "sql.properties";
     e_db := {| ds_connect := Ok (); ds_relevant := Ok [None];
                ds_hierarchy := Ok []; ds_api_list := Ok []; ds_output := Ok [];
                ds_ip := Ok []; ds_ws := Ok []; ds_param := Ok [] |};
     e_props := NoSuchFile;
     e_template := Ok [Paragraph (Some "Title") "API"; Table ["a"] [["b"]]];
     e_save := Ok () |}.

Definition sample_db : DataSource :=
  {| ds_connect := Ok (); ds_relevant := Ok [Some "A01"; Some "B02"; Some "A01"];
     ds_hierarchy := Ok sample_hierarchy; ds_api_list := Ok [sample_descriptor];
     ds_output := Ok []; ds_ip := Ok []; ds_ws := Ok [];
     ds_param := Ok sample_param_rows |}.

Definition sample_env : Env :=
  {| e_params := {| server := "db"; database := "ws"; username := "u"; password := "p" |};
     e_template_path := "template.docx";
     e_output_path := "out.docx";
     e_props_path := "sql.properties";
     e_db := sample_db;
     e_props := Text "A01.sql=select *\n\tfrom t where a \= 1
";
     e_template := Ok [Paragraph (Some "Title") "API"];
     e_save := Ok () |}.


(** ** Notions for the further properties *)

(** The text shows something: it is not blank. *)
Definition shown (text : string) : Prop := PyStr.strip text <> EmptyString.

(** An ordering result with a batch whose description is NULL. *)
Definition hierarchy_with_null : list HRow :=
  [ {| h_batch_code := Some "FI_03"; h_batch_desc := None;
       h_seq := VInt 1; h_api_code := Some "A01"; h_api_desc := VStr "query" |};
    {| h_batch_code := Some "FI_02"; h_batch_desc := Some "alpha";
       h_seq := VInt 1; h_api_code := Some "A01"; h_api_desc := VStr "query" |} ].



(** The seven queries, in the order of the code. *)
Definition all_queries : list query :=
  [QRelevant; QHierarchy; QApiList; QOutput; QIp; QWs; QParam].

(** The calls of a run that finds everything and renders [blocks] over the
    template [doc]. *)
Definition full_calls (env : Env) (doc blocks : document) : list event :=
  [EvConnect (conn_str (e_params env));
   EvQuery QRelevant; EvQuery QHierarchy; EvQuery QApiList; EvQuery QOutput;
   EvQuery QIp; EvQuery QWs; EvQuery QParam;
   EvLoadProperties (e_props_path env);
   EvOpenTemplate (e_template_path env);
   EvSave (e_output_path env) (doc ++ blocks)].

(** A run whose ordering result has a blank sequence value. *)
Definition blank_sequence_env : Env :=
  {| e_params := {| server := "db"; database := "ws"; username := "u"; password := "p" |};
     e_template_path := "template.docx";
     e_output_path := "out.docx";
     e_props_path := "sql.properties";
     e_db := {| ds_connect := Ok (); ds_relevant := Ok [Some "A01"];
                ds_hierarchy :=
                  Ok [ {| h_batch_code := Some "FI_02"; h_batch_desc := Some "alpha";
                          h_seq := VStr ""; h_api_code := Some "A01";
                          h_api_desc := VStr "query" |} ];
                ds_api_list := Ok [sample_descriptor]; ds_output := Ok [];
                ds_ip := Ok []; ds_ws := Ok []; ds_param := Ok [] |};
     e_props := Text "A01.sql=select 1";
     e_template := Ok [Paragraph (Some "Title") "API"];
     e_save := Ok () |}.

(** The blocks are made of batch parts (a heading, a table, a spacer) and API
    parts (a heading, the detail table, a spacer, and four sub-sections of a
    heading, a table and a spacer), as far as counting tells. *)
Definition well_counted (doc : document) : Prop :=
  length (tables doc)
  = (length (headings "Heading 2" doc) + 5 * length (headings "Heading 4" doc))%nat
  /\ length (headings "Heading 5" doc) = (4 * length (headings "Heading 4" doc))%nat
  /\ length doc
     = (3 * length (headings "Heading 2" doc)
        + 15 * length (headings "Heading 4" doc))%nat.

(** ** [upload_files] of [main.py]

    The handler of [POST /upload/], for one request.  What it finds outside
    (the temporary files it is given, the outcome of writing and removing
    them, and what the run of [generate_api_doc] finds) is the answer of the
    server.  Logging is left out. *)

(** [HTTPException(status_code, detail={"message": ..., "type": ...})] *)
Record HTTPException : Type := {
  status_code : Z;
  detail_message : string;
  detail_type : string
}.

(** What is raised inside the handler: an exception of the layers below, or
    an [HTTPException]. *)
Inductive raised : Type :=
  | Below (e : exn)
  | Http (h : HTTPException).

(** [FileResponse(path=..., filename=..., media_type=...)] *)
Record FileResponse : Type := {
  response_path : string;
  response_filename : string;
  response_media_type : string
}.

(** The uploaded contents and the form fields. *)
Record Request : Type := {
  word_template : string;
  sql_properties : string;
  form : ConnParams
}.

(** The answers of the server to one request. *)
Record Server : Type := {
  tmp_dir : string;                 (* the directory of the temporary files *)
  tmp_word : res string;            (* [NamedTemporaryFile(suffix=".docx")]: its name *)
  write_word : res unit;            (* [tmp_word.write(content)] *)
  tmp_props : res string;           (* [NamedTemporaryFile(suffix=".properties")] *)
  write_props : res unit;           (* [tmp_props.write(content)] *)
  sv_db : DataSource;
  sv_props : file;
  sv_template : res document;
  sv_save : res unit;
  remove_ok : string -> bool;       (* [os.remove(path)] succeeds; else [OSError] *)
  exn_text : exn -> string          (* [str(e)] *)
}.

(** The local variables of the handler and what it leaves outside: the files
    present, the connections open, the calls of the run. *)
Record UState : Type := {
  present_files : gset string;
  tmp_word_path : option string;
  tmp_props_path : option string;
  output_path : option string;
  db_open : nat;
  run_calls : list event
}.

Definition output_filename : string := "API_規格書.docx".

Definition docx_media_type : string :=
  "application/vnd.openxmlformats-officedocument.wordprocessingml.document".

(** [Path(dir) / name] *)
Definition in_dir (dir name : string) : string := dir +:+ "/" +:+ name.

(** One [with NamedTemporaryFile(delete=False, ...)] block: the file is
    created; an empty content raises before anything is written and before
    the path is recorded; else the content is written and the path is
    returned to be recorded. *)
Definition store_upload (dir : string) (created : res string) (content : string)
    (written : res unit) (empty_message : string) (files : gset string)
  : (string + raised) * gset string :=
  match created with
  | Raise e => (inr (Below e), files)
  | Ok name =>
      let path := in_dir dir name in
      let files' := {[ path ]} ∪ files in
      if bool_decide (content = EmptyString) then
        (inr (Http {| status_code := 400; detail_message := empty_message;
                      detail_type := "EmptyFile" |}), files')
      else match written with
           | Raise e => (inr (Below e), files')
           | Ok _ => (inl path, files')
           end
  end.

(** The [except] clauses of the handler, in their order: [pyodbc.Error],
    [FileNotFoundError], [HTTPException], [Exception]. *)
Definition translate (sv : Server) (r : raised) : HTTPException :=
  match r with
  | Below DatabaseError =>
      {| status_code := 400;
         detail_message := "資料庫連線或查詢失敗: " +:+ exn_text sv DatabaseError;
         detail_type := "DatabaseError" |}
  | Below FileNotFoundError =>
      {| status_code := 400;
         detail_message := "伺服器處理文件時找不到檔案: " +:+ exn_text sv FileNotFoundError;
         detail_type := "FileNotFound" |}
  | Http h => h
  | Below e =>
      {| status_code := 500;
         detail_message := "文件生成過程中發生未知錯誤: " +:+ exn_text sv e;
         detail_type := "UnknownError" |}
  end.

(** [if path and path.exists(): try: os.remove(path) except OSError: ...] *)
Definition remove_if_exists (sv : Server) (path : option string)
    (files : gset string) : gset string :=
  match path with
  | Some p =>
      if bool_decide (p ∈ files)
      then (if remove_ok sv p then files ∖ {[ p ]} else files)
      else files
  | None => files
  end.

Section Upload.
Context {rt : PyRuntime}.

(** The arguments [generate_api_doc] is called with, and what it finds. *)
Definition run_env (req : Request) (sv : Server) (word_path props_path out : string)
  : Env :=
  {| e_params := form req;
     e_template_path := word_path;
     e_output_path := out;
     e_props_path := props_path;
     e_db := sv_db sv;
     e_props := sv_props sv;
     e_template := sv_template sv;
     e_save := sv_save sv |}.

(** The block under [try]. *)
Definition upload_body (req : Request) (sv : Server) (s : UState)
  : (FileResponse + raised) * UState :=
  match store_upload (tmp_dir sv) (tmp_word sv) (word_template req) (write_word sv)
          "上傳的 Word 範本檔案為空。" (present_files s) with
  | (inr r, files1) =>
      (inr r, {| present_files := files1; tmp_word_path := tmp_word_path s;
                 tmp_props_path := tmp_props_path s; output_path := output_path s;
                 db_open := db_open s; run_calls := run_calls s |})
  | (inl word_path, files1) =>
      match store_upload (tmp_dir sv) (tmp_props sv) (sql_properties req)
              (write_props sv) "上傳的 SQL 設定檔為空。" files1 with
      | (inr r, files2) =>
          (inr r, {| present_files := files2; tmp_word_path := Some word_path;
                     tmp_props_path := tmp_props_path s; output_path := output_path s;
                     db_open := db_open s; run_calls := run_calls s |})
      | (inl props_path, files2) =>
          let out := in_dir (tmp_dir sv) output_filename in
          let run := generate_api_doc (run_env req sv word_path props_path out)
                       (start (db_open s) (run_calls s)) in
          match run.1 with
          | Ok _ =>
              (inl {| response_path := out; response_filename := output_filename;
                      response_media_type := docx_media_type |},
               {| present_files := {[ out ]} ∪ files2;
                  tmp_word_path := Some word_path; tmp_props_path := Some props_path;
                  output_path := Some out;
                  db_open := open_connections run.2; run_calls := trace run.2 |})
          | Raise e =>
              (inr (Below e),
               {| present_files := files2;
                  tmp_word_path := Some word_path; tmp_props_path := Some props_path;
                  output_path := Some out;
                  db_open := open_connections run.2; run_calls := trace run.2 |})
          end
      end
  end.

(** The clause [finally]: the two temporary files whose paths were recorded
    are removed; the output file is left. *)
Definition cleanup (sv : Server) (s : UState) : UState :=
  {| present_files :=
       remove_if_exists sv (tmp_props_path s)
         (remove_if_exists sv (tmp_word_path s) (present_files s));
     tmp_word_path := tmp_word_path s; tmp_props_path := tmp_props_path s;
     output_path := output_path s;
     db_open := db_open s; run_calls := run_calls s |}.

Definition upload_files (req : Request) (sv : Server) (s : UState)
  : (FileResponse + raised) * UState :=
  let '(r, s') := upload_body req sv s in
  (match r with
   | inl response => inl response
   | inr x => inr (Http (translate sv x))
   end, cleanup sv s').

(** A request comes with no path recorded. *)
Definition fresh (files : gset string) (open : nat) : UState :=
  {| present_files := files; tmp_word_path := None; tmp_props_path := None;
     output_path := None; db_open := open; run_calls := [] |}.

End Upload.

(** A server that gives the two temporary files and a data source that
    refuses the connection. *)
Definition refusing_server : Server :=
  {| tmp_dir := "/tmp";
     tmp_word := Ok "tmpa.docx"; write_word := Ok ();
     tmp_props := Ok "tmpb.properties"; write_props := Ok ();
     sv_db := {| ds_connect := Raise DatabaseError; ds_relevant := Ok [];
                 ds_hierarchy := Ok []; ds_api_list := Ok []; ds_output := Ok [];
                 ds_ip := Ok []; ds_ws := Ok []; ds_param := Ok [] |};
     sv_props := Text "";
     sv_template := Ok [];
     sv_save := Ok ();
     remove_ok := fun _ => true;
     exn_text := fun _ => "login failed" |}.

(** A server on which the run finds what [sample_env] finds. *)
Definition sample_server : Server :=
  {| tmp_dir := "/tmp";
     tmp_word := Ok "tmpa.docx"; write_word := Ok ();
     tmp_props := Ok "tmpb.properties"; write_props := Ok ();
     sv_db := sample_db;
     sv_props := e_props sample_env;
     sv_template := e_template sample_env;
     sv_save := Ok ();
     remove_ok := fun _ => true;
     exn_text := fun _ => "" |}.

Definition sample_request : Request :=
  {| word_template := "PK"; sql_properties := "A01.sql=select 1";
     form := {| server := "db"; database := "ws"; username := "u"; password := "p" |} |}.

Definition empty_template_request : Request :=
  {| word_template := ""; sql_properties := "A01.sql=select 1";
     form := {| server := "db"; database := "ws"; username := "u"; password := "p" |} |}.

Definition empty_properties_request : Request :=
  {| word_template := "PK"; sql_properties := "";
     form := {| server := "db"; database := "ws"; username := "u"; password := "p" |} |}.

(** * Properties *)

(** ** Strings *)

Module PyStrFacts.
Import PyStr.

Lemma space2_high c1 c2 :
  space2 c1 c2 = true -> (128 <= code c1 /\ 128 <= code c2)%N.
Proof.
  unfold space2.
  rewrite !andb_true_iff, !orb_true_iff, !N.eqb_eq. lia.
Qed.

Lemma space3_high c1 c2 c3 :
  space3 c1 c2 c3 = true -> (128 <= code c1 /\ 128 <= code c2 /\ 128 <= code c3)%N.
Proof.
  unfold space3. cbv zeta.
  rewrite !orb_true_iff, !andb_true_iff, !orb_true_iff, !andb_true_iff,
          !N.eqb_eq, !N.leb_le. lia.
Qed.

Lemma ascii_space_low c : ascii_space c = true -> (code c <= 32)%N.
Proof.
  unfold ascii_space. cbv zeta.
  rewrite !orb_true_iff, !andb_true_iff, !N.leb_le. lia.
Qed.

Lemma plain_not_space c : plain c -> ascii_space c = false.
Proof.
  intros Hc. destruct (ascii_space c) eqn:E; [|reflexivity].
  apply ascii_space_low in E. unfold plain in Hc. lia.
Qed.

Lemma lstrip_plain c s : plain c -> lstrip (String c s) = String c s.
Proof.
  intros Hc. cbn [lstrip]. rewrite (plain_not_space c Hc).
  destruct s as [|c2 s2]; [reflexivity|].
  destruct (space2 c c2) eqn:E2.
  { apply space2_high in E2. unfold plain in Hc. lia. }
  destruct s2 as [|c3 s3]; [reflexivity|].
  destruct (space3 c c2 c3) eqn:E3; [|reflexivity].
  apply space3_high in E3. unfold plain in Hc. lia.
Qed.

Lemma strip_plain c s : plain c -> strip (String c s) = String c (rstrip s).
Proof.
  intros Hc. unfold strip. rewrite (lstrip_plain c s Hc).
  cbn [rstrip]. unfold blank. rewrite (lstrip_plain c s Hc). reflexivity.
Qed.

Lemma blank_lacks_plain c : plain c ->
  forall n s, (String.length s <= n)%nat -> blank s = true -> contains c s = false.
Proof.
  intros Hc. unfold blank.
  induction n as [|n IH]; intros s Hn Hb.
  - destruct s; [reflexivity | cbn in Hn; lia].
  - destruct s as [|c1 s1]; [reflexivity|].
    cbn [lstrip] in Hb. cbn [contains].
    destruct (ascii_space c1) eqn:E1.
    + destruct (ascii_dec c c1) as [->|_].
      * rewrite (plain_not_space c1 Hc) in E1. discriminate.
      * apply IH; [cbn in Hn; lia | exact Hb].
    + destruct s1 as [|c2 s2]; [discriminate|].
      destruct (space2 c1 c2) eqn:E2.
      * apply space2_high in E2. unfold plain in Hc.
        destruct (ascii_dec c c1) as [->|_]; [lia|]. cbn [contains].
        destruct (ascii_dec c c2) as [->|_]; [lia|].
        apply IH; [cbn in Hn; lia | exact Hb].
      * destruct s2 as [|c3 s3]; [discriminate|].
        destruct (space3 c1 c2 c3) eqn:E3; [|discriminate].
        apply space3_high in E3. unfold plain in Hc.
        destruct (ascii_dec c c1) as [->|_]; [lia|]. cbn [contains].
        destruct (ascii_dec c c2) as [->|_]; [lia|]. cbn [contains].
        destruct (ascii_dec c c3) as [->|_]; [lia|].
        apply IH; [cbn in Hn; lia | exact Hb].
Qed.

Lemma blank_lacks c s : plain c -> blank s = true -> contains c s = false.
Proof. intros Hc. apply (blank_lacks_plain c Hc (String.length s)). lia. Qed.

Lemma lstrip_idem_upto n :
  forall s, (String.length s <= n)%nat -> lstrip (lstrip s) = lstrip s.
Proof.
  induction n as [|n IH]; intros s Hn.
  - destruct s; [reflexivity | cbn in Hn; lia].
  - destruct s as [|c1 s1]; [reflexivity|].
    cbn [lstrip]. destruct (ascii_space c1) eqn:E1.
    { apply IH. cbn in Hn. lia. }
    destruct s1 as [|c2 s2].
    { cbn [lstrip]. rewrite E1. reflexivity. }
    destruct (space2 c1 c2) eqn:E2.
    { apply IH. cbn in Hn. lia. }
    destruct s2 as [|c3 s3].
    { cbn [lstrip]. rewrite E1, E2. reflexivity. }
    destruct (space3 c1 c2 c3) eqn:E3.
    { apply IH. cbn in Hn. lia. }
    cbn [lstrip]. rewrite E1, E2, E3. reflexivity.
Qed.

Lemma lstrip_idem s : lstrip (lstrip s) = lstrip s.
Proof. apply (lstrip_idem_upto (String.length s)). lia. Qed.

(** [s.strip() == ''] says that [s] is white space only. *)
Lemma strip_empty_iff s : strip s = EmptyString <-> blank s = true.
Proof.
  unfold strip, blank. split.
  - intros H. destruct (lstrip s) as [|c t] eqn:E; [reflexivity|].
    cbn [rstrip] in H. unfold blank in H. rewrite <- E, lstrip_idem, E in H.
    discriminate H.
  - intros H. destruct (lstrip s); [reflexivity | discriminate].
Qed.

Lemma split1_found c s :
  contains c s = true ->
  exists k v, split1 c s = [k; v] /\ s = k +:+ String c v /\ contains c k = false.
Proof.
  induction s as [|b s IH]; cbn; [discriminate|].
  destruct (ascii_dec c b) as [->|Hne].
  - intros _. exists EmptyString, s. auto.
  - intros H. destruct (IH H) as (k & v & -> & -> & Hk).
    exists (String b k), v. cbn.
    destruct (ascii_dec c b); [contradiction|]. auto.
Qed.

Lemma split1_missing c s : contains c s = false -> split1 c s = [s].
Proof.
  induction s as [|b s IH]; cbn; [reflexivity|].
  destruct (ascii_dec c b); [discriminate|].
  intros H. rewrite (IH H). reflexivity.
Qed.

End PyStrFacts.

(** ** The properties loader *)

Module LoaderFacts.

Lemma eq_sign_plain : plain "=".
Proof. unfold plain. vm_compute. split; reflexivity. Qed.

Lemma load_line_ignored d line : ignored line -> load_line d line = Ok d.
Proof.
  unfold load_line. intros [-> | ->]; [reflexivity|].
  rewrite andb_false_r. reflexivity.
Qed.

Lemma blank_line_ignored line : PyStr.strip line = EmptyString -> ignored line.
Proof.
  intros H. left. apply PyStrFacts.blank_lacks; [exact eq_sign_plain|].
  now apply PyStrFacts.strip_empty_iff.
Qed.

Lemma load_line_stored d line :
  PyStr.contains "=" line = true ->
  PyStr.startswith "#" (PyStr.strip line) = false ->
  exists key val,
    PyStr.split1 "=" line = [key; val] /\
    line = key +:+ String "=" val /\ PyStr.contains "=" key = false /\
    load_line d line = Ok (<[PyStr.strip key := PyStr.strip val]> d).
Proof.
  intros Hc Hs. unfold load_line. rewrite Hc, Hs. cbn.
  destruct (PyStrFacts.split1_found _ _ Hc) as (k & v & -> & -> & Hk).
  exists k, v. auto.
Qed.

Lemma load_lines_app d l1 l2 :
  load_lines d (l1 ++ l2) = (d' ← load_lines d l1; load_lines d' l2).
Proof.
  revert d. induction l1 as [|x l1 IH]; intros d; cbn; [reflexivity|].
  destruct (load_line d x) as [d'|e]; cbn; [apply IH | reflexivity].
Qed.

Lemma load_line_pair d line :
  load_line d line = Ok (store d (option_list (line_pair line))).
Proof.
  unfold line_pair. case_bool_decide as Hb.
  { rewrite load_line_ignored; [reflexivity | now apply blank_line_ignored]. }
  destruct (PyStr.startswith "#" (PyStr.strip line)) eqn:Hs.
  { rewrite load_line_ignored; [reflexivity | now right]. }
  destruct (PyStr.contains "=" line) eqn:Hc.
  - destruct (load_line_stored d line Hc Hs) as (k & v & -> & _ & _ & ->).
    reflexivity.
  - rewrite load_line_ignored by now left.
    rewrite (PyStrFacts.split1_missing _ _ Hc). reflexivity.
Qed.

Lemma load_lines_pairs lines : forall d,
  load_lines d lines = Ok (store d (omap line_pair lines)).
Proof.
  induction lines as [|line rest IH]; intros d; cbn; [reflexivity|].
  rewrite load_line_pair. cbn. rewrite IH. f_equal.
  destruct (line_pair line); reflexivity.
Qed.

Lemma store_lookup pairs : forall d k,
  store d pairs !! k = match last_value k pairs with
                       | Some v => Some v
                       | None => d !! k
                       end.
Proof.
  induction pairs as [|[k' v] rest IH]; intros d k; cbn; [reflexivity|].
  unfold store in IH. rewrite IH.
  destruct (last_value k rest); [reflexivity|].
  destruct (decide (k = k')) as [->|Hne].
  - apply lookup_insert_eq.
  - apply lookup_insert_ne. congruence.
Qed.

End LoaderFacts.

Module Loader.
Import LoaderFacts.

(** C6, as the code has it.  Loading a text succeeds, and the dictionary holds
    under each key the value of the last line that gives the key, where a line
    gives a pair when it is not blank after trimming, its trimmed form does
    not begin with [#] and it has an [=]: the pair is the text before the
    first [=] and the text after it, both trimmed.  A line that is blank,
    a comment, or without [=] leaves the dictionary as it is.  A path that
    does not exist raises [FileNotFoundError]. *)
Theorem C6_loader_last_pair_wins :
  (forall s, exists m,
      load_sql_properties (Text s) = Ok m /\
      forall k, m !! k = last_value k (omap line_pair (PyStr.readlines s)))
  /\ load_sql_properties NoSuchFile = Raise FileNotFoundError
  /\ (forall d line,
        PyStr.strip line = EmptyString \/
        PyStr.startswith "#" (PyStr.strip line) = true \/
        PyStr.contains "=" line = false ->
        line_pair line = None /\ load_line d line = Ok d)
  /\ (forall d line,
        PyStr.contains "=" line = true ->
        PyStr.startswith "#" (PyStr.strip line) = false ->
        exists key val,
          line = key +:+ String "=" val /\ PyStr.contains "=" key = false /\
          line_pair line = Some (PyStr.strip key, PyStr.strip val) /\
          load_line d line = Ok (<[PyStr.strip key := PyStr.strip val]> d)).
Proof.
  split; [|split; [reflexivity|split]].
  - intros s. eexists. split.
    + cbn. apply load_lines_pairs.
    + intros k. rewrite store_lookup, lookup_empty.
      destruct (last_value k _); reflexivity.
  - intros d line H.
    assert (Hi : ignored line).
    { destruct H as [H|[H|H]]; [now apply blank_line_ignored | now right | now left]. }
    split; [|now apply load_line_ignored].
    unfold line_pair. case_bool_decide; [reflexivity|].
    destruct (PyStr.startswith "#" (PyStr.strip line)) eqn:Hs; [reflexivity|].
    destruct H as [H|[H|H]]; [contradiction | discriminate |].
    rewrite (PyStrFacts.split1_missing _ _ H). reflexivity.
  - intros d line Hc Hs.
    destruct (load_line_stored d line Hc Hs) as (k & v & Hsp & Hl & Hk & Hd).
    exists k, v. repeat split; try assumption.
    unfold line_pair. rewrite Hs, Hsp.
    case_bool_decide as Hb; [|reflexivity].
    apply blank_line_ignored in Hb. destruct Hb; congruence.
Qed.

Lemma C6_loader_witness :
  exists m, load_sql_properties (Text sample_properties) = Ok m /\
            m !! "a" = Some "2" /\ m !! "b" = Some "x=y" /\ m !! "key" = None.
Proof.
  destruct (proj1 C6_loader_last_pair_wins sample_properties) as (m & Hm & Hk).
  exists m. split; [exact Hm|]. rewrite !Hk. repeat split; reflexivity.
Defined.

(** C6 as stated fails: a line that is neither blank nor a comment is not
    always stored as a pair. *)
Lemma C6_counterexample :
  ~ (forall line d,
       PyStr.strip line <> EmptyString ->
       PyStr.startswith "#" (PyStr.strip line) = false ->
       exists key val, load_line d line = Ok (<[key := val]> d)).
Proof.
  intros H. destruct (H "abc" ∅) as (k & v & Hl).
  - discriminate.
  - reflexivity.
  - assert (E : load_line ∅ "abc" = Ok ∅) by reflexivity.
    rewrite E in Hl.
    apply (f_equal (fun r => match r with Ok m => m !! k | Raise _ => None end)) in Hl.
    rewrite lookup_empty, lookup_insert_eq in Hl. discriminate Hl.
Qed.

(** C10.  A line without [=], and a line whose trimmed form begins with [#]
    (also when it has an [=]), is passed over: the dictionary is unchanged,
    no exception is raised, and loading the lines goes as if the line were
    not there. *)
Theorem C10_line_without_pair_is_ignored (line : string) :
  PyStr.contains "=" line = false \/
  PyStr.startswith "#" (PyStr.strip line) = true ->
  (forall d, load_line d line = Ok d) /\
  (forall d before after,
      load_lines d (before ++ line :: after) = load_lines d (before ++ after)).
Proof.
  intros H. split.
  - intros d. now apply load_line_ignored.
  - intros d before after. rewrite !load_lines_app.
    destruct (load_lines d before) as [d'|e]; cbn; [|reflexivity].
    rewrite load_line_ignored by exact H. reflexivity.
Qed.

Lemma C10_witness :
  PyStr.contains "=" "# a=b" = true /\
  load_line {[ "k" := "v" ]} "# a=b" = Ok {[ "k" := "v" ]} /\
  load_line {[ "k" := "v" ]} "no pair here" = Ok {[ "k" := "v" ]}.
Proof.
  split; [reflexivity|]. split.
  - apply (C10_line_without_pair_is_ignored "# a=b"). right. reflexivity.
  - apply (C10_line_without_pair_is_ignored "no pair here"). left. reflexivity.
Defined.

End Loader.

(** ** The hierarchy index *)

Module Index.

Lemma unique_from_elem {A : Type} `{EqDecision A} (l : list A) :
  forall seen x, x ∈ unique_from seen l <-> x ∈ l /\ x ∉ seen.
Proof.
  induction l as [|y l IH]; intros seen x; cbn.
  - rewrite elem_of_nil. tauto.
  - case_bool_decide as Hy.
    + rewrite IH, elem_of_cons. split; [tauto|].
      intros [[->|Hx] Hn]; [contradiction | tauto].
    + rewrite !elem_of_cons, IH, elem_of_cons.
      destruct (decide (x = y)) as [->|Hne]; tauto.
Qed.

Lemma unique_elem {A : Type} `{EqDecision A} (l : list A) x :
  x ∈ unique l <-> x ∈ l.
Proof.
  unfold unique. rewrite unique_from_elem, elem_of_nil. tauto.
Qed.

Lemma unique_from_NoDup {A : Type} `{EqDecision A} (l : list A) :
  forall seen, NoDup (unique_from seen l).
Proof.
  induction l as [|y l IH]; intros seen; cbn; [constructor|].
  case_bool_decide; [apply IH|].
  constructor; [|apply IH].
  rewrite unique_from_elem, elem_of_cons. tauto.
Qed.

Lemma dropna_elem (col : list (option string)) x :
  x ∈ dropna col <-> Some x ∈ col.
Proof.
  unfold dropna. rewrite list_elem_of_omap. split.
  - intros (o & Ho & E). cbn in E. now subst.
  - intros H. now exists (Some x).
Qed.

Lemma key_eq_true cell k : key_eq cell (Some k) = true <-> cell = Some k.
Proof.
  destruct cell as [a|]; cbn; [|split; discriminate].
  rewrite bool_decide_eq_true. split; congruence.
Qed.

(** The rows of a code are not empty exactly when a row carries the code. *)
Lemma rows_of_nonempty df api_code :
  rows_of df api_code <> [] <-> exists r, In r df /\ row_code r = Some api_code.
Proof.
  unfold rows_of. split.
  - intros H. destruct (List.filter _ df) as [|r l] eqn:E; [contradiction|].
    exists r. rewrite <- key_eq_true.
    apply (filter_In (fun r => key_eq (row_code r) (Some api_code))).
    rewrite E. now left.
  - intros (r & Hr & Hc) E.
    assert (Hin : In r (List.filter (fun r => key_eq (row_code r) (Some api_code)) df)).
    { apply filter_In. split; [exact Hr | now apply key_eq_true]. }
    rewrite E in Hin. exact Hin.
Qed.

Lemma codes_of_frame df api_code :
  api_code ∈ unique (dropna (map row_code df)) <-> rows_of df api_code <> [].
Proof.
  rewrite unique_elem, dropna_elem, rows_of_nonempty, list_elem_of_In, in_map_iff.
  split; intros (r & H1 & H2); exists r; auto.
Qed.

Lemma populate_code_lookup df sheet_name api_data c api_code sheet :
  sheet_of (populate_code df sheet_name api_data c) api_code sheet =
  if bool_decide (api_code = c /\ sheet = sheet_name) then Some (rows_of df c)
  else sheet_of api_data api_code sheet.
Proof.
  unfold sheet_of, populate_code.
  destruct (decide (api_code = c)) as [->|Hc].
  - rewrite lookup_insert_eq. cbn.
    destruct (decide (sheet = sheet_name)) as [->|Hs].
    + rewrite lookup_insert_eq, bool_decide_eq_true_2; auto.
    + rewrite lookup_insert_ne by congruence.
      rewrite bool_decide_eq_false_2 by tauto.
      destruct (api_data !! c) eqn:E; [now rewrite E|].
      rewrite lookup_insert_eq. reflexivity.
  - rewrite lookup_insert_ne by congruence.
    rewrite bool_decide_eq_false_2 by tauto.
    destruct (api_data !! c); [reflexivity|].
    rewrite lookup_insert_ne by congruence. reflexivity.
Qed.

Lemma populate_codes_lookup df sheet_name codes : forall api_data api_code sheet,
  sheet_of (foldl (populate_code df sheet_name) api_data codes) api_code sheet =
  if bool_decide (api_code ∈ codes /\ sheet = sheet_name)
  then Some (rows_of df api_code)
  else sheet_of api_data api_code sheet.
Proof.
  induction codes as [|c codes IH]; intros api_data api_code sheet; cbn.
  - rewrite bool_decide_eq_false_2; [reflexivity|].
    rewrite elem_of_nil. tauto.
  - rewrite IH, populate_code_lookup.
    case_bool_decide as H1.
    + rewrite bool_decide_eq_true_2; [reflexivity|].
      rewrite elem_of_cons. tauto.
    + case_bool_decide as H2.
      * destruct H2 as [-> ->].
        rewrite bool_decide_eq_true_2; [reflexivity|].
        rewrite elem_of_cons. tauto.
      * rewrite bool_decide_eq_false_2; [reflexivity|].
        rewrite elem_of_cons. intros [[->|Hc] ->]; tauto.
Qed.

(** What [populate_api_data] leaves under a code and a sheet name. *)
Lemma populate_api_data_lookup df sheet_name api_data api_code sheet :
  sheet_of (populate_api_data df sheet_name api_data) api_code sheet =
  if bool_decide (rows_of df api_code <> [] /\ sheet = sheet_name)
  then Some (rows_of df api_code)
  else sheet_of api_data api_code sheet.
Proof.
  unfold populate_api_data. rewrite populate_codes_lookup.
  apply (f_equal (fun b : bool => if b then _ else _)).
  apply bool_decide_ext. now rewrite codes_of_frame.
Qed.

(** Every row set of an index built from frames is the non-empty set of the
    rows of its code in the frame stored last under its sheet name. *)
Lemma index_lookup (named : list (string * Frame)) : forall api_data api_code sheet df,
  sheet_of (foldl (fun a '(sheet_name, F) => populate_api_data F sheet_name a)
                  api_data named) api_code sheet = Some df ->
  sheet_of api_data api_code sheet = Some df \/
  exists F, In (sheet, F) named /\ df = rows_of F api_code /\ df <> [].
Proof.
  induction named as [|[n F] named IH]; intros api_data api_code sheet df; cbn.
  - auto.
  - intros H. apply IH in H as [H|(F' & Hin & E & Hne)].
    + rewrite populate_api_data_lookup in H.
      case_bool_decide as Hb; [|auto].
      destruct Hb as [Hne ->]. injection H as <-.
      right. exists F. auto.
    + right. exists F'. auto.
Qed.

End Index.

Module IndexClaims.
Import Index.

(** C9.  In the index built by the five calls of [populate_api_data], an
    entry under a code and a category name is never an empty row set: it is
    the set of the rows of that category's result that carry the code, and at
    least one row does. *)
Theorem C9_index_row_sets_are_not_empty
    (api_list output ip ws param : Frame)
    (api_code : string) (entry : gmap string Frame) (sheet : string) (df : Frame) :
  build_api_data api_list output ip ws param !! api_code = Some entry ->
  entry !! sheet = Some df ->
  df <> [] /\
  sheet_of (build_api_data api_list output ip ws param) api_code sheet <> Some [] /\
  exists F, In (sheet, F) (sheets api_list output ip ws param) /\
            df = rows_of F api_code /\
            exists r, In r F /\ row_code r = Some api_code.
Proof.
  intros He Hs.
  assert (H : sheet_of (build_api_data api_list output ip ws param) api_code sheet
              = Some df).
  { unfold sheet_of. rewrite He. exact Hs. }
  pose proof H as H'. unfold build_api_data in H'.
  apply index_lookup in H' as [H'|(F & Hin & E & Hne)].
  { unfold sheet_of in H'. rewrite lookup_empty in H'. cbn in H'.
    rewrite lookup_empty in H'. discriminate H'. }
  split; [exact Hne|]. split.
  { rewrite H. intros [= ->]. now apply Hne. }
  exists F. split; [exact Hin|]. split; [exact E|].
  apply rows_of_nonempty. now rewrite <- E.
Qed.

Lemma C9_witness :
  sheet_of sample_api_data "A01" "參數驗證" <> Some [] /\
  sheet_of sample_api_data "A01" "WebService" = None.
Proof.
  split; [|reflexivity].
  refine (proj1 (proj2 (C9_index_row_sets_are_not_empty
            [sample_descriptor] [] [] [] sample_param_rows "A01" _ "參數驗證" _ _ _)));
    vm_compute; reflexivity.
Defined.

End IndexClaims.

(** ** Cells *)

Module Cells.
Import PyStrFacts.

Lemma dec_head z : exists c s, dec z = String c s /\ plain c.
Proof.
  unfold dec, plain. destruct (Z.to_int z) as [d|d].
  - destruct d; cbn; eexists _, _; (split; [reflexivity|]); vm_compute; split; reflexivity.
  - cbn. eexists _, _. split; [reflexivity|]. vm_compute. split; reflexivity.
Qed.

Lemma dec_not_blank z : PyStr.strip (dec z) <> EmptyString.
Proof.
  destruct (dec_head z) as (c & s & -> & Hc). now rewrite strip_plain.
Qed.

(** A whole float is one that denotes an integer, and [int()] gives it. *)
Lemma is_integer_denotes f : is_integer f = true <-> exists z, float_denotes f z.
Proof.
  destruct f as [m e| |]; cbn; [|split; [discriminate|intros [? []]]..].
  destruct (Z.leb_spec 0 e) as [He|He].
  - split; [eauto | reflexivity].
  - assert (Hp : 0 < 2 ^ (- e)) by (apply Z.pow_pos_nonneg; lia).
    rewrite Z.eqb_eq. split.
    + intros H. exists (m / 2 ^ (- e)).
      rewrite (Z.div_mod m (2 ^ (- e))) at 1 by lia. lia.
    + intros [z ->]. apply Z.mod_mul. lia.
Qed.

Lemma int_of_float_denotes f z : float_denotes f z -> int_of_float f = Ok z.
Proof.
  destruct f as [m e| |]; cbn; [|contradiction..].
  destruct (Z.leb_spec 0 e) as [He|He]; intros ->; [reflexivity|].
  rewrite Z.quot_mul; [reflexivity|].
  assert (0 < 2 ^ (- e)) by (apply Z.pow_pos_nonneg; lia). lia.
Qed.

(** [float()] of an integer below [2^1023] in magnitude succeeds, and gives a
    whole float. *)
Lemma float_of_int_whole z :
  Z.abs z < 2 ^ 1023 -> exists f, float_of_int z = Ok f /\ is_integer f = true.
Proof.
  intros Hz. unfold float_of_int. cbv zeta.
  destruct (Z.ltb_spec (Z.abs z) (2 ^ 53)) as [Hs|Hs].
  { eexists. split; reflexivity. }
  set (a := Z.abs z) in *.
  set (sh := Z.log2 a - 52).
  assert (Ha : 0 < a).
  { assert (0 < 2 ^ 53) by (apply Z.pow_pos_nonneg; lia). lia. }
  assert (Hl : 53 <= Z.log2 a) by (apply Z.log2_le_pow2; [exact Ha | exact Hs]).
  assert (Hsh : 1 <= sh) by (unfold sh; lia).
  assert (Hpow : 0 < 2 ^ sh) by (apply Z.pow_pos_nonneg; lia).
  assert (Hle : 2 ^ sh <= a).
  { transitivity (2 ^ Z.log2 a).
    - apply Z.pow_le_mono_r; unfold sh; lia.
    - apply Z.log2_spec. exact Ha. }
  assert (Hq : Z.shiftr a sh * 2 ^ sh <= a).
  { rewrite Z.shiftr_div_pow2 by lia. rewrite Z.mul_comm. apply Z.mul_div_le. lia. }
  set (q := Z.shiftr a sh) in *.
  match goal with
  | |- context [if ?c then q + 1 else q] => set (q' := if c then q + 1 else q)
  end.
  assert (Hq' : q' <= q + 1) by (unfold q'; destruct (_ || _); lia).
  assert (Hb : q' * 2 ^ sh < 2 ^ 1024).
  { change (2 ^ 1024) with (2 * 2 ^ 1023). nia. }
  destruct (Z.leb_spec (2 ^ 1024) (q' * 2 ^ sh)) as [H|_]; [lia|].
  eexists. split; [reflexivity|]. cbn.
  destruct (Z.leb_spec 0 sh); [reflexivity | lia].
Qed.

Section WithRuntime.
Context {rt : PyRuntime}.

Lemma present_int z : present (VInt z) = true.
Proof.
  unfold present. cbn. apply bool_decide_eq_true_2, dec_not_blank.
Qed.

Lemma present_float f : f <> FNan -> present (VFloat f) = true.
Proof.
  intros Hf. unfold present.
  assert (notna (VFloat f) = true) as -> by (destruct f; [reflexivity..|contradiction]).
  cbn. apply bool_decide_eq_true_2, float_str_not_blank.
Qed.

Lemma present_str s : present (VStr s) = bool_decide (PyStr.strip s <> EmptyString).
Proof. reflexivity. Qed.

Lemma present_false v :
  present v = false <-> notna v = false \/ PyStr.strip (py_str v) = EmptyString.
Proof.
  unfold present. rewrite andb_false_iff, bool_decide_eq_false.
  split; (intros [H|H]; [now left | right]).
  - destruct (decide (PyStr.strip (py_str v) = EmptyString)); [assumption|contradiction].
  - intros Hn. contradiction.
Qed.

Lemma denotes_not_nan f z : float_denotes f z -> f <> FNan.
Proof. intros H ->. exact H. Qed.

Lemma int_or_str_int z :
  Z.abs z < 2 ^ 1023 -> int_or_str (VInt z) = Ok (dec z).
Proof.
  intros Hz. unfold int_or_str. cbn [py_float].
  destruct (float_of_int_whole z Hz) as (f & -> & Hf). cbn. rewrite Hf. reflexivity.
Qed.

Lemma int_or_str_whole f z :
  float_denotes f z -> int_or_str (VFloat f) = Ok (dec z).
Proof.
  intros H. unfold int_or_str. cbn.
  assert (is_integer f = true) as -> by (apply is_integer_denotes; eauto).
  cbn. rewrite (int_of_float_denotes f z H). reflexivity.
Qed.

Lemma api_seq_cell_int z :
  Z.abs z < 2 ^ 1023 -> api_seq_cell (VInt z) = Ok (dec z).
Proof.
  intros Hz. unfold api_seq_cell. cbn [notna py_float].
  destruct (float_of_int_whole z Hz) as (f & -> & Hf). cbn. rewrite Hf. reflexivity.
Qed.

Lemma api_seq_cell_whole f z :
  float_denotes f z -> api_seq_cell (VFloat f) = Ok (dec z).
Proof.
  intros H. unfold api_seq_cell.
  assert (notna (VFloat f) = true) as ->.
  { destruct f; try reflexivity; contradiction. }
  cbn. assert (is_integer f = true) as -> by (apply is_integer_denotes; eauto).
  cbn. rewrite (int_of_float_denotes f z H). reflexivity.
Qed.

Lemma api_seq_cell_fraction f :
  is_integer f = false -> api_seq_cell (VFloat f) = Ok DEFAULT_NAN_DISPLAY.
Proof.
  intros H. unfold api_seq_cell. destruct (notna (VFloat f)); cbn; [|reflexivity].
  rewrite H. reflexivity.
Qed.

End WithRuntime.
End Cells.

Module CellClaims.
Import Cells.

(** C1, as the code has it.  In a sub-section table, a cell of the column
    [序] or [節點階層] shows a missing or blank value as the placeholder, a
    whole number as its integer form (2.0 as [2]), a float with a fractional
    part as its own text, and a text as itself unless [float()] reads a
    whole number in it and [int()] reads it too.  In the batch table, the
    [順序] cell, made from [API順序], shows a whole number as its integer form
    and a missing value or a float with a fractional part as the
    placeholder. *)
Theorem C1_sequence_cells {rt : PyRuntime} (header : string) (v : value) :
  header = "序" \/ header = "節點階層" ->
  (notna v = false \/ PyStr.strip (py_str v) = EmptyString ->
     section_cell header v = Ok DEFAULT_NAN_DISPLAY)
  /\ (forall z, whole_number v z -> section_cell header v = Ok (dec z))
  /\ (forall f, v = VFloat f -> f <> FNan -> is_integer f = false ->
        section_cell header v = Ok (py_str v))
  /\ (forall s, v = VStr s -> PyStr.strip s <> EmptyString ->
        section_cell header v =
        Ok match parse_float s with
           | Some f =>
               if is_integer f
               then match parse_int s with Some z => dec z | None => s end
               else s
           | None => s
           end)
  /\ (notna v = false -> api_seq_cell v = Ok DEFAULT_NAN_DISPLAY)
  /\ (forall z, whole_number v z -> api_seq_cell v = Ok (dec z))
  /\ (forall f, v = VFloat f -> is_integer f = false ->
        api_seq_cell v = Ok DEFAULT_NAN_DISPLAY).
Proof.
  intros Hh.
  assert (Hin : bool_decide (header ∈ ["序"; "節點階層"]) = true).
  { apply bool_decide_eq_true_2. destruct Hh as [-> | ->]; set_solver. }
  repeat split.
  - intros H. apply present_false in H. unfold section_cell. now rewrite H.
  - intros z [[-> Hz] | (f & -> & Hf)]; unfold section_cell.
    + rewrite present_int, Hin, int_or_str_int by exact Hz. reflexivity.
    + rewrite present_float by (eapply denotes_not_nan; eassumption).
      rewrite Hin, (int_or_str_whole f z Hf). reflexivity.
  - intros f -> Hf Hi. unfold section_cell.
    rewrite present_float, Hin by exact Hf.
    unfold int_or_str. cbn. rewrite Hi. reflexivity.
  - intros s -> Hs. unfold section_cell.
    rewrite present_str, bool_decide_eq_true_2, Hin by exact Hs.
    unfold int_or_str. cbn.
    destruct (parse_float s) as [f|]; cbn; [|reflexivity].
    destruct (is_integer f); cbn; [|reflexivity].
    destruct (parse_int s); reflexivity.
  - intros H. unfold api_seq_cell. rewrite H. reflexivity.
  - intros z [[-> Hz] | (f & -> & Hf)].
    + now apply api_seq_cell_int.
    + now apply api_seq_cell_whole.
  - intros f -> Hi. now apply api_seq_cell_fraction.
Qed.

Lemma C1_witness :
  @section_cell example_runtime "序" (VFloat (FFinite 2 0)) = Ok "2" /\
  @api_seq_cell example_runtime (VFloat (FFinite 2 0)) = Ok "2" /\
  @section_cell example_runtime "節點階層" (VFloat (FFinite 5 (-1))) = Ok "2.5" /\
  @api_seq_cell example_runtime (VFloat (FFinite 5 (-1))) = Ok "NaN" /\
  @section_cell example_runtime "序" (VStr "n/a") = Ok "n/a" /\
  @section_cell example_runtime "序" VNone = Ok "NaN".
Proof.
  assert (W : whole_number (VFloat (FFinite 2 0)) 2).
  { right. exists (FFinite 2 0). split; reflexivity. }
  destruct (@C1_sequence_cells example_runtime "序" (VFloat (FFinite 2 0))
              (or_introl eq_refl)) as (_ & H1 & _ & _ & _ & H2 & _).
  destruct (@C1_sequence_cells example_runtime "節點階層" (VFloat (FFinite 5 (-1)))
              (or_intror eq_refl)) as (_ & _ & H3 & _ & _ & _ & H4).
  destruct (@C1_sequence_cells example_runtime "序" (VStr "n/a")
              (or_introl eq_refl)) as (_ & _ & _ & H5 & _).
  destruct (@C1_sequence_cells example_runtime "序" VNone
              (or_introl eq_refl)) as (H6 & _).
  split; [exact (H1 2 W)|]. split; [exact (H2 2 W)|].
  split; [apply (H3 _ eq_refl); [discriminate | reflexivity]|].
  split; [apply (H4 _ eq_refl); reflexivity|].
  split; [apply (H5 _ eq_refl); discriminate|].
  apply H6. left. reflexivity.
Defined.

(** C1 as stated fails for [API順序]: a float with a fractional part does not
    show as its own text there. *)
Lemma C1_counterexample :
  ~ (forall f, f <> FNan -> is_integer f = false ->
       @api_seq_cell example_runtime (VFloat f)
       = Ok (@py_str example_runtime (VFloat f))).
Proof.
  intros H. specialize (H (FFinite 5 (-1))).
  assert (E : @api_seq_cell example_runtime (VFloat (FFinite 5 (-1))) = Ok "NaN")
    by reflexivity.
  rewrite E in H. discriminate H; [discriminate | reflexivity].
Qed.

End CellClaims.

(** ** Replacement of a two-character pattern *)

Module ReplaceFacts.
Import PyStr.

Lemma append_assoc (a b c : string) : (a +:+ b) +:+ c = a +:+ (b +:+ c).
Proof.
  induction a as [|x a IH]; [reflexivity|].
  change (String x ((a +:+ b) +:+ c) = String x (a +:+ (b +:+ c))).
  now rewrite IH.
Qed.

Section TwoChars.
Variables (p q : ascii) (new : string).
Hypothesis p_q : p <> q.

Local Abbreviation old := (String p (String q EmptyString)).
Local Abbreviation clear_of_second := (not_starting_with q).

Lemma startswith_two c s :
  startswith old (String c s) = true <->
  c = p /\ exists s', s = String q s'.
Proof.
  cbn. destruct (ascii_dec p c) as [<-|Hc].
  - destruct s as [|d t].
    + split; [discriminate | intros [_ [s' H]]; discriminate].
    + destruct (ascii_dec q d) as [<-|Hd].
      * split; eauto.
      * split; [discriminate|]. intros [_ [s' H]]. congruence.
  - split; [discriminate | intros [H _]; congruence].
Qed.

Lemma replace_app_upto n : forall a rest,
  (String.length a <= n)%nat -> clear_of_second rest ->
  replace old new (a +:+ rest) = replace old new a +:+ replace old new rest.
Proof.
  unfold replace.
  induction n as [|n IH]; intros a rest Hn Hr.
  - destruct a; [reflexivity | cbn in Hn; lia].
  - destruct a as [|c a']; [reflexivity|].
    change (String c a' +:+ rest) with (String c (a' +:+ rest)).
    cbn [replace_from].
    destruct (startswith old (String c (a' +:+ rest))) eqn:E.
    + apply startswith_two in E as [-> [s' E]].
      destruct a' as [|d a''].
      * change (rest = String q s') in E. subst rest. cbn in Hr. contradiction.
      * injection E as -> _.
        assert (startswith old (String p (String q a'')) = true) as ->.
        { apply startswith_two. eauto. }
        change (String q a'' +:+ rest) with (String q (a'' +:+ rest)).
        cbn [replace_from String.length Nat.pred].
        rewrite IH by (cbn in Hn; auto with lia).
        symmetry. apply append_assoc.
    + destruct (startswith old (String c a')) eqn:E'.
      * apply startswith_two in E' as [-> [s' ->]].
        assert (startswith old (String p (String q s' +:+ rest)) = true) as E''.
        { apply startswith_two. split; [reflexivity|]. now exists (s' +:+ rest). }
        congruence.
      * rewrite IH by (cbn in Hn; auto with lia). reflexivity.
Qed.

Lemma replace_app a rest :
  clear_of_second rest ->
  replace old new (a +:+ rest) = replace old new a +:+ replace old new rest.
Proof. apply (replace_app_upto (String.length a)). lia. Qed.

(** An occurrence of the pattern is replaced where it stands. *)
Lemma replace_occurrence a b :
  replace old new (a +:+ old +:+ b) = replace old new a +:+ new +:+ replace old new b.
Proof.
  rewrite replace_app by (cbn; exact p_q). f_equal.
  change (old +:+ b) with (String p (String q b)).
  unfold replace. cbn [replace_from startswith String.length Nat.pred].
  destruct (ascii_dec p p); [|contradiction].
  destruct (ascii_dec q q); [|contradiction]. reflexivity.
Qed.

(** A character that is neither of the two stays where it stands. *)
Lemma replace_other a c b :
  c <> p -> c <> q ->
  replace old new (a +:+ String c b) = replace old new a +:+ String c (replace old new b).
Proof.
  intros Hp Hq. rewrite replace_app by (cbn; exact Hq). f_equal.
  unfold replace. cbn [replace_from startswith].
  destruct (ascii_dec p c); [congruence|]. reflexivity.
Qed.

End TwoChars.
End ReplaceFacts.

(** ** The [語法] row *)

Module Syntax.
Import ReplaceFacts.

Lemma decode_newline a b :
  decode_escapes (a +:+ "\n" +:+ b) = decode_escapes a +:+ NL +:+ decode_escapes b.
Proof.
  unfold decode_escapes.
  rewrite (replace_occurrence "\" "n" NL) by discriminate.
  change (NL +:+ ?y) with (String (PyStr.byte 10) y).
  rewrite (replace_other "\" "t" TAB) by discriminate.
  rewrite (replace_other "\" "=" "=") by discriminate.
  reflexivity.
Qed.

Lemma decode_tab a b :
  decode_escapes (a +:+ "\t" +:+ b) = decode_escapes a +:+ TAB +:+ decode_escapes b.
Proof.
  unfold decode_escapes.
  rewrite (replace_app "\" "n" NL) by (cbn; discriminate).
  assert (PyStr.replace "\n" NL ("\t" +:+ b) = "\t" +:+ PyStr.replace "\n" NL b) as ->
    by reflexivity.
  rewrite (replace_occurrence "\" "t" TAB) by discriminate.
  change (TAB +:+ ?y) with (String (PyStr.byte 9) y).
  rewrite (replace_other "\" "=" "=") by discriminate.
  reflexivity.
Qed.

Lemma decode_equals a b :
  decode_escapes (a +:+ "\=" +:+ b) = decode_escapes a +:+ "=" +:+ decode_escapes b.
Proof.
  unfold decode_escapes.
  rewrite (replace_app "\" "n" NL) by (cbn; discriminate).
  assert (PyStr.replace "\n" NL ("\=" +:+ b) = "\=" +:+ PyStr.replace "\n" NL b) as ->
    by reflexivity.
  rewrite (replace_app "\" "t" TAB) by (cbn; discriminate).
  assert (forall x, PyStr.replace "\t" TAB ("\=" +:+ x) = "\=" +:+ PyStr.replace "\t" TAB x) as ->
    by reflexivity.
  rewrite (replace_occurrence "\" "=" "=") by discriminate.
  reflexivity.
Qed.

End Syntax.

Module SyntaxClaims.
Import Syntax.

(** C2, as the code has it.  The [語法] row of the detail table takes the
    [語法設定鍵值] of the descriptor.  When the key is missing or blank the row
    shows the placeholder [NaN]; otherwise the key is looked up in the syntax
    map: a key of the map shows its text with the escapes decoded, each
    backslash-n, backslash-t and backslash-= turning into a line feed, a tab
    and [=] where it stands, and a key that is not in the map shows the fixed
    not-found text. *)
Theorem C2_syntax_row {rt : PyRuntime}
    (sql_map : gmap string string) (first : Row) (config_key_val : value) :
  row_lookup first "語法設定鍵值" = Some config_key_val ->
  detail_value sql_map first "語法" = syntax_value sql_map first
  /\ (present config_key_val = true ->
        forall raw, sql_map !! py_str config_key_val = Some raw ->
                    syntax_value sql_map first = Ok (decode_escapes raw))
  /\ (present config_key_val = true ->
        sql_map !! py_str config_key_val = None ->
        syntax_value sql_map first = Ok DEFAULT_SQL_NOT_FOUND)
  /\ (notna config_key_val = false \/
      PyStr.strip (py_str config_key_val) = EmptyString ->
        syntax_value sql_map first = Ok DEFAULT_NAN_DISPLAY)
  /\ (forall a b,
        decode_escapes (a +:+ "\n" +:+ b)
          = decode_escapes a +:+ NL +:+ decode_escapes b /\
        decode_escapes (a +:+ "\t" +:+ b)
          = decode_escapes a +:+ TAB +:+ decode_escapes b /\
        decode_escapes (a +:+ "\=" +:+ b)
          = decode_escapes a +:+ "=" +:+ decode_escapes b).
Proof.
  intros Hk. split; [reflexivity|].
  unfold syntax_value. rewrite Hk.
  split; [|split; [|split]].
  - intros Hp raw Hr. rewrite Hp, Hr. reflexivity.
  - intros Hp Hr. rewrite Hp, Hr. reflexivity.
  - intros H. apply Cells.present_false in H. rewrite H. reflexivity.
  - intros a b. split; [apply decode_newline|].
    split; [apply decode_tab | apply decode_equals].
Qed.

Lemma C2_witness :
  @syntax_value example_runtime sample_sql_map sample_descriptor
  = Ok ("select *" +:+ NL +:+ TAB +:+ "from t where a = 1") /\
  @syntax_value example_runtime ∅ sample_descriptor = Ok DEFAULT_SQL_NOT_FOUND.
Proof.
  destruct (@C2_syntax_row example_runtime sample_sql_map sample_descriptor
              (VStr "A01.sql") eq_refl) as (_ & H1 & _).
  destruct (@C2_syntax_row example_runtime ∅ sample_descriptor
              (VStr "A01.sql") eq_refl) as (_ & _ & H2 & _).
  split.
  - rewrite (H1 eq_refl _ eq_refl). reflexivity.
  - apply H2; reflexivity.
Defined.

(** C2 as stated fails for a blank key: the row shows the placeholder, not
    the not-found text. *)
Lemma C2_counterexample :
  ~ (forall (sql_map : gmap string string) (first : Row) (key : string),
       row_lookup first "語法設定鍵值" = Some (VStr key) ->
       PyStr.strip key = EmptyString ->
       @syntax_value example_runtime sql_map first = Ok DEFAULT_SQL_NOT_FOUND).
Proof.
  intros H.
  specialize (H ∅ {| row_code := Some "A01";
                     row_cells := {[ "語法設定鍵值" := VStr " " ]} |} " "
                eq_refl eq_refl).
  discriminate H.
Qed.

End SyntaxClaims.

(** ** Tables *)

Module Tables.

Lemma for_each_total {A B : Type} (f : A -> res B) (xs : list A) :
  (forall x, In x xs -> exists y, f x = Ok y) ->
  exists ys, for_each f xs = Ok ys /\ Forall2 (fun x y => f x = Ok y) xs ys.
Proof.
  induction xs as [|x xs IH]; intros H; cbn.
  - exists []. split; [reflexivity | constructor].
  - destruct (H x (or_introl eq_refl)) as [y Hy].
    destruct IH as (ys & Hys & HF); [intros x' Hx'; apply H; now right|].
    exists (y :: ys). rewrite Hy, Hys. split; [reflexivity | now constructor].
Qed.

Lemma for_each_inv {A B : Type} (f : A -> res B) (xs : list A) : forall ys,
  for_each f xs = Ok ys -> Forall2 (fun x y => f x = Ok y) xs ys.
Proof.
  induction xs as [|x xs IH]; intros ys; cbn.
  - intros [= <-]. constructor.
  - destruct (f x) as [y|e] eqn:Hy; cbn; [|discriminate].
    destruct (for_each f xs) as [ys'|e]; cbn; [|discriminate].
    intros [= <-]. constructor; [exact Hy | now apply IH].
Qed.

Lemma Forall2_same_length {A B : Type} (P : A -> B -> Prop) xs ys :
  Forall2 P xs ys -> length ys = length xs.
Proof. induction 1; cbn; congruence. Qed.

Lemma placeholder_row (headers : list string) :
  List.map (fun _ => DEFAULT_NAN_DISPLAY) headers
  = repeat DEFAULT_NAN_DISPLAY (length headers).
Proof. induction headers; cbn; congruence. Qed.

Section WithRuntime.
Context {rt : PyRuntime}.

Lemma section_cell_total header v :
  floatable v = true -> exists text, section_cell header v = Ok text.
Proof.
  intros Hv. unfold section_cell.
  destruct (present v) eqn:Hp; [|eauto].
  destruct (bool_decide _); [|eauto].
  destruct v as [|z|f|s].
  - discriminate Hp.
  - rewrite Cells.int_or_str_int; [eauto|]. now apply Z.ltb_lt.
  - unfold int_or_str. cbn. destruct f as [m e| |]; cbn; eauto.
    destruct (if 0 <=? e then true else _); cbn; eauto.
  - unfold int_or_str. cbn.
    destruct (parse_float s) as [f|]; cbn; [|eauto].
    destruct (is_integer f); cbn; [|eauto].
    destruct (parse_int s); cbn; eauto.
Qed.

Lemma section_rows_of_frame headers r df :
  frame_floatable headers (r :: df) = true ->
  exists rows,
    section_rows headers (Some (r :: df)) = Ok rows /\
    length rows = length (r :: df) /\
    Forall (fun row => length row = length headers) rows.
Proof.
  intros Hf. unfold section_rows.
  set (cells := fun row_data =>
         for_each (fun header => section_cell header (row_get row_data header)) headers).
  destruct (for_each_total cells (r :: df)) as (rows & Hr & HF).
  - intros x Hx. unfold frame_floatable in Hf.
    rewrite forallb_forall in Hf. specialize (Hf x Hx).
    rewrite forallb_forall in Hf.
    destruct (for_each_total
                (fun header => section_cell header (row_get x header)) headers)
      as (row & Hrow & _); [|eauto].
    intros h Hh. apply section_cell_total. now apply Hf.
  - exists rows. split; [exact Hr|]. split.
    + eapply Forall2_same_length, HF.
    + clear Hr Hf. revert HF. generalize (r :: df). intros xs HF.
      induction HF as [|x row xs rows' Hx _ IH]; constructor; [|exact IH].
      apply for_each_inv in Hx. eapply Forall2_same_length, Hx.
Qed.

Lemma detail_value_total sql_map first param :
  is_Some (row_lookup first "語法設定鍵值") ->
  exists text, detail_value sql_map first param = Ok text.
Proof.
  intros [k Hk]. unfold detail_value, syntax_value.
  destruct (decide _).
  - rewrite Hk. destruct (present k); eauto.
  - destruct (row_lookup first param); eauto.
Qed.

Lemma detail_rows_of_frame sql_map first df :
  is_Some (row_lookup first "語法設定鍵值") ->
  exists rows,
    detail_rows sql_map (Some (first :: df)) = Ok rows /\
    length rows = length param_names /\
    List.map (fun row => List.firstn 2 row) rows
    = List.map (fun '(i, param) => [dec i; param]) (enumerate 1 param_names).
Proof.
  intros Hk. unfold detail_rows.
  set (f := fun '(i, param) =>
         value_to_display ← detail_value sql_map first param;
         Ok [dec i; param; value_to_display]).
  destruct (for_each_total f (enumerate 1 param_names)) as (rows & Hr & HF).
  - intros [i param] _. cbn.
    destruct (detail_value_total sql_map first param Hk) as [t ->]. cbn. eauto.
  - exists rows. split; [exact Hr|]. split.
    + apply Forall2_same_length in HF. rewrite HF. reflexivity.
    + clear Hr. revert HF. generalize (enumerate 1 param_names). intros xs HF.
      induction HF as [|[i param] row xs rows' Hx _ IH]; [reflexivity|].
      cbn. rewrite IH. f_equal. cbn in Hx.
      destruct (detail_value sql_map first param); cbn in Hx; [|discriminate].
      injection Hx as <-. reflexivity.
Qed.

End WithRuntime.
End Tables.

Module TableClaims.
Import Tables.

(** C3, as the code has it.  For an API code, each of the four sub-section
    tables has one data row per row of the code's row set of that category
    when the set is not empty (its integers being such as [float()] takes),
    each row with one cell per column; when the set is empty or absent the
    table has exactly one row, with one cell per column, every cell the
    placeholder.  The detail table of the API descriptor has the ten rows of
    the fixed parameter names, numbered from 1, whatever the number of rows
    of the descriptor set; when that set is empty or absent it has exactly
    one row of three placeholders. *)
Theorem C3_table_rows {rt : PyRuntime}
    (sql_map : gmap string string) (api_data : gmap string (gmap string Frame))
    (api_code : string) :
  (forall sheet_name headers,
     match sheet_of api_data api_code sheet_name with
     | Some (r :: df) =>
         frame_floatable headers (r :: df) = true ->
         exists rows,
           section_blocks api_data api_code (sheet_name, headers)
           = Ok [Paragraph (Some "Heading 5") sheet_name; Table headers rows;
                 blank_paragraph] /\
           length rows = length (r :: df) /\
           Forall (fun row => length row = length headers) rows
     | _ =>
         section_blocks api_data api_code (sheet_name, headers)
         = Ok [Paragraph (Some "Heading 5") sheet_name;
               Table headers [repeat DEFAULT_NAN_DISPLAY (length headers)];
               blank_paragraph]
     end)
  /\ match sheet_of api_data api_code "API清單" with
     | Some (first :: df) =>
         is_Some (row_lookup first "語法設定鍵值") ->
         exists rows,
           detail_blocks sql_map api_data api_code
           = Ok [Paragraph (Some "Heading 4") api_code; Table headers_api_list rows;
                 blank_paragraph] /\
           length rows = 10%nat /\
           List.map (fun row => List.firstn 2 row) rows
           = List.map (fun '(i, param) => [dec i; param]) (enumerate 1 param_names)
     | _ =>
         detail_blocks sql_map api_data api_code
         = Ok [Paragraph (Some "Heading 4") api_code;
               Table headers_api_list
                 [[DEFAULT_NAN_DISPLAY; DEFAULT_NAN_DISPLAY; DEFAULT_NAN_DISPLAY]];
               blank_paragraph]
     end.
Proof.
  split.
  - intros sheet_name headers.
    change (section_blocks api_data api_code (sheet_name, headers))
      with (rows ← section_rows headers (sheet_of api_data api_code sheet_name);
            Ok [Paragraph (Some "Heading 5") sheet_name; Table headers rows;
                blank_paragraph]).
    destruct (sheet_of api_data api_code sheet_name) as [[|r df]|].
    + cbn. now rewrite placeholder_row.
    + intros Hf.
      destruct (section_rows_of_frame headers r df Hf) as (rows & -> & Hl & Hc).
      exists rows. auto.
    + cbn. now rewrite placeholder_row.
  - unfold detail_blocks.
    destruct (sheet_of api_data api_code "API清單") as [[|first df]|]; try reflexivity.
    intros Hk.
    destruct (detail_rows_of_frame sql_map first df Hk) as (rows & -> & Hl & Hp).
    exists rows. auto.
Qed.

Lemma C3_witness :
  (exists rows,
     @section_blocks example_runtime sample_api_data "A01"
        ("參數驗證", ["序"; "屬性名"; "預設值"; "說明"])
     = Ok [Paragraph (Some "Heading 5") "參數驗證";
           Table ["序"; "屬性名"; "預設值"; "說明"] rows; blank_paragraph] /\
     length rows = 2%nat) /\
  (exists rows,
     @detail_blocks example_runtime sample_sql_map sample_api_data "A01"
     = Ok [Paragraph (Some "Heading 4") "A01"; Table headers_api_list rows;
           blank_paragraph] /\
     length rows = 10%nat).
Proof.
  destruct (@C3_table_rows example_runtime sample_sql_map sample_api_data "A01")
    as [Hs Hd].
  split.
  - destruct (Hs "參數驗證" ["序"; "屬性名"; "預設值"; "說明"] eq_refl)
      as (rows & Hr & Hl & _).
    exists rows. split; [exact Hr | exact Hl].
  - destruct (Hd (ex_intro _ (VStr "A01.sql") eq_refl)) as (rows & Hr & Hl & _).
    exists rows. split; [exact Hr | exact Hl].
Defined.

(** C3 as stated fails for the detail table: a descriptor set of one row
    gives ten data rows. *)
Lemma C3_counterexample :
  ~ (forall (sql_map : gmap string string) (api_df : Frame) rows,
       api_df <> [] ->
       @detail_rows example_runtime sql_map (Some api_df) = Ok rows ->
       length rows = length api_df).
Proof.
  intros H.
  destruct (@detail_rows example_runtime sample_sql_map (Some [sample_descriptor]))
    as [rows|e] eqn:E; [|discriminate E].
  specialize (H sample_sql_map [sample_descriptor] rows ltac:(discriminate) E).
  vm_compute in E. injection E as <-. discriminate H.
Qed.

End TableClaims.

(** ** The order of emission *)

Module Order.





Lemma insert_batch_perm x l : Permutation (insert_batch x l) (x :: l).
Proof.
  induction l as [|y l IH]; cbn; [reflexivity|].
  destruct (desc_le x.2 y.2); [reflexivity|].
  rewrite IH. apply perm_swap.
Qed.

Lemma sort_values_perm l : Permutation (sort_values l) l.
Proof.
  induction l as [|x l IH]; cbn; [reflexivity|].
  rewrite insert_batch_perm. now constructor.
Qed.

(** One batch for each distinct pair of the ordering rows. *)
Lemma batch_list_distinct api_hierarchy_df :
  NoDup (batch_list_of api_hierarchy_df) /\
  forall b, In b (batch_list_of api_hierarchy_df) <->
            exists r, In r api_hierarchy_df /\ (h_batch_code r, h_batch_desc r) = b.
Proof.
  unfold batch_list_of. split.
  - rewrite sort_values_perm. apply Index.unique_from_NoDup.
  - intros b. rewrite <- list_elem_of_In, sort_values_perm, Index.unique_elem.
    rewrite list_elem_of_In, in_map_iff.
    split; intros (r & H1 & H2); exists r; auto.
Qed.



End Order.

(** ** The shape of the rendered blocks *)

Module Emission.
Import Tables.

Lemma headings_app style (a b : document) :
  headings style (a ++ b)%list = (headings style a ++ headings style b)%list.
Proof. apply omap_app. Qed.

Lemma batch_tables_app (a b : document) :
  batch_tables (a ++ b)%list = (batch_tables a ++ batch_tables b)%list.
Proof. apply omap_app. Qed.

Section WithRuntime.
Context {rt : PyRuntime}.

(** The blocks of an API hold no batch heading and no batch table, and the
    API heading exactly when the row is not passed over. *)
Lemma api_blocks_shape sql_map api_data r a :
  api_blocks sql_map api_data r = Ok a ->
  headings "Heading 2" a = [] /\ batch_tables a = [] /\
  headings "Heading 4" a = option_list (nonblank_code r).
Proof.
  unfold api_blocks, nonblank_code.
  destruct (h_api_code r) as [api_code|]; [|intros [= <-]; auto].
  case_bool_decide; [intros [= <-]; auto|].
  unfold detail_blocks.
  destruct (detail_rows _ _) as [d|e]; cbn; [|discriminate].
  unfold section_blocks.
  repeat (match goal with
          | |- context [section_rows ?h ?df] =>
              destruct (section_rows h df) as [?|?]; cbn; [|discriminate]
          end).
  intros [= <-]. auto.
Qed.


Lemma apis_shape sql_map api_data group_df apis :
  Forall2 (fun r a => api_blocks sql_map api_data r = Ok a) group_df apis ->
  headings "Heading 2" (concat apis) = [] /\ batch_tables (concat apis) = [] /\
  headings "Heading 4" (concat apis) = omap nonblank_code group_df.
Proof.
  induction 1 as [|r a g apis' Hr _ (IH2 & IHt & IH4)]; [auto|].
  apply api_blocks_shape in Hr as (H2 & Ht & H4).
  cbn [concat]. rewrite !headings_app, batch_tables_app, H2, Ht, H4, IH2, IHt, IH4.
  cbn [omap list_omap]. destruct (nonblank_code r); auto.
Qed.

Lemma batch_blocks_shape api_hierarchy_df sql_map api_data b blk :
  batch_blocks api_hierarchy_df sql_map api_data b = Ok blk ->
  exists rows,
    api_list_rows (group_of api_hierarchy_df b) = Ok rows /\
    headings "Heading 2" blk = [batch_heading b] /\
    batch_tables blk = [rows] /\
    headings "Heading 4" blk = omap nonblank_code (group_of api_hierarchy_df b).
Proof.
  unfold batch_blocks.
  destruct (api_list_rows _) as [rows|e]; cbn [mbind res_bind]; [|discriminate].
  destruct (for_each _ _) as [apis|e] eqn:Ha; cbn [mbind res_bind]; [|discriminate].
  intros [= <-]. apply for_each_inv, apis_shape in Ha as (H2 & Ht & H4).
  exists rows. split; [reflexivity|].
  change (?x :: ?y :: ?z :: concat apis) with ([x; y; z] ++ concat apis)%list.
  rewrite !headings_app, batch_tables_app, H2, Ht, H4. auto.
Qed.

Lemma render_shape api_hierarchy_df sql_map api_data blocks :
  render api_hierarchy_df sql_map api_data = Ok blocks ->
  headings "Heading 2" blocks = List.map batch_heading (batch_list_of api_hierarchy_df)
  /\ Forall2 (fun b rows => api_list_rows (group_of api_hierarchy_df b) = Ok rows)
             (batch_list_of api_hierarchy_df) (batch_tables blocks)
  /\ headings "Heading 4" blocks
     = concat (List.map (fun b => omap nonblank_code (group_of api_hierarchy_df b))
                        (batch_list_of api_hierarchy_df)).
Proof.
  unfold render.
  destruct (for_each _ _) as [bs|e] eqn:Hb; cbn; [|discriminate].
  intros [= <-]. apply for_each_inv in Hb.
  induction Hb as [|b blk l bs' Hblk _ (IH2 & IHt & IH4)].
  - repeat split. constructor.
  - apply batch_blocks_shape in Hblk as (rows & Hr & H2 & Ht & H4).
    cbn [concat List.map].
    rewrite !headings_app, batch_tables_app, H2, Ht, H4, IH2, IH4.
    repeat split. constructor; [exact Hr | exact IHt].
Qed.

End WithRuntime.
End Emission.

Module OrderClaims.
Import Order Emission.



End OrderClaims.

(** ** The run *)

Module Run.

Lemma quiet_call {A : Type} ev (outcome : res A) : quiet (call ev outcome).
Proof. intros s. split; reflexivity. Qed.

Lemma quiet_lift {A : Type} (r : res A) : quiet (lift r).
Proof. intros s. split; reflexivity. Qed.

Lemma quiet_bind {A B : Type} (m : M A) (f : A -> M B) :
  quiet m -> (forall a, quiet (f a)) -> quiet (x ← m; f x).
Proof.
  intros Hm Hf s. unfold mbind, M_bind.
  specialize (Hm s). destruct (m s) as [[a|e] s']; cbn in *.
  - destruct Hm as [Hm1 Hm2]. destruct (Hf a s') as [H1 H2]. split; congruence.
  - exact Hm.
Qed.

Section WithRuntime.
Context {rt : PyRuntime}.

Lemma quiet_handle e : quiet (handle e).
Proof. apply quiet_bind; [apply quiet_call | intros; apply quiet_lift]. Qed.

Lemma quiet_no_data env : quiet (no_data_document env).
Proof. apply quiet_bind; [apply quiet_call | intros; apply quiet_call]. Qed.

Lemma quiet_full env : quiet (full_document env).
Proof.
  unfold full_document.
  repeat (apply quiet_bind; [first [apply quiet_call | apply quiet_lift] | intros]).
  apply quiet_call.
Qed.

Lemma quiet_after_connect env :
  quiet (codes ← call (EvQuery QRelevant) (ds_relevant (e_db env));
         match unique (dropna codes) with
         | [] => no_data_document env
         | _ :: _ => full_document env
         end).
Proof.
  apply quiet_bind; [apply quiet_call|]. intros codes.
  destruct (unique (dropna codes)); [apply quiet_no_data | apply quiet_full].
Qed.

(** The block under [try] opens at most one connection, and holds it in
    [conn] when it does. *)
Lemma body_connection env s :
  match ds_connect (e_db env) with
  | Ok _ =>
      conn (generate_body env s).2 = true /\
      open_connections (generate_body env s).2 = S (open_connections s)
  | Raise e =>
      generate_body env s = (Raise e, emit (EvConnect (conn_str (e_params env))) s)
  end.
Proof.
  unfold generate_body, mbind at 1, M_bind at 1, connect.
  destruct (ds_connect (e_db env)) as [[]|e]; [|reflexivity].
  match goal with
  | |- context [?m {| conn := true; open_connections := ?o; trace := ?t |}] =>
      destruct (quiet_after_connect env {| conn := true; open_connections := o; trace := t |})
        as [H1 H2]
  end.
  split; [exact H1 | exact H2].
Qed.

End WithRuntime.
End Run.

Module RunClaims.
Import Run.



End RunClaims.

Module DocumentClaims.


Lemma tables_app (a b : document) : tables (a ++ b)%list = (tables a ++ tables b)%list.
Proof. apply List.filter_app. Qed.

(** C4.  When the first query returns no code, the run opens the template,
    appends the one paragraph with the fixed message, hands the document to
    [doc.save] and ends: no other query is sent, nothing is rendered, and the
    tables of the document are those of the template. *)
Theorem C4_no_relevant_code {rt : PyRuntime}
    (env : Env) (open : nat) (codes : list (option string)) (template : document) :
  ds_connect (e_db env) = Ok () ->
  ds_relevant (e_db env) = Ok codes ->
  unique (dropna codes) = [] ->
  e_template env = Ok template ->
  let run := generate_api_doc env (start open []) in
  let doc := (template ++ [Paragraph None NO_DATA_MESSAGE])%list in
  run.1 = e_save env
  /\ trace run.2
     = ([EvConnect (conn_str (e_params env)); EvQuery QRelevant;
         EvOpenTemplate (e_template_path env); EvSave (e_output_path env) doc]
        ++ match e_save env with
           | Ok _ => []
           | Raise e => [EvLogError (clause_of e)]
           end
        ++ [EvClose])%list
  /\ saved (trace run.2) = [doc]
  /\ queries_sent (trace run.2) = [QRelevant]
  /\ tables doc = tables template
  /\ open_connections run.2 = open.
Proof.
  intros Hc Hr Hu Ht. cbv zeta.
  unfold generate_api_doc, try_finally, try_except, generate_body, no_data_document,
    connect, call, handle, raise, lift, close_connection, mbind, M_bind, emit.
  rewrite Hc, Hr. cbn. rewrite Hu, Ht. cbn.
  destruct (e_save env) as [[]|e]; cbn;
    (repeat split; try reflexivity;
     rewrite tables_app; cbn; apply app_nil_r).
Qed.

Lemma C4_witness :
  saved (trace (@generate_api_doc example_runtime no_data_env (start 0 [])).2)
  = [[Paragraph (Some "Title") "API"; Table ["a"] [["b"]];
      Paragraph None NO_DATA_MESSAGE]].
Proof.
  refine (proj1 (proj2 (proj2
            (@C4_no_relevant_code example_runtime no_data_env 0 [None] _
               eq_refl eq_refl eq_refl eq_refl)))).
Defined.

End DocumentClaims.

Module Determinism.
Import DocumentClaims.



End Determinism.

Module DeterminismClaims.
Import Determinism.



End DeterminismClaims.

(** ** More on the hierarchy index *)

Module IndexMore.
Import Index.

(** Every dictionary of the index holds at least one category. *)
Lemma populate_code_inner df sheet_name api_data c :
  (forall code entry, api_data !! code = Some entry -> entry <> ∅) ->
  forall code entry,
    populate_code df sheet_name api_data c !! code = Some entry -> entry <> ∅.
Proof.
  intros Inv code entry. unfold populate_code.
  destruct (decide (code = c)) as [->|Hne].
  - rewrite lookup_insert_eq. intros [= <-]. apply insert_non_empty.
  - rewrite lookup_insert_ne by congruence.
    destruct (api_data !! c) eqn:E; [apply Inv|].
    rewrite lookup_insert_ne by congruence. apply Inv.
Qed.

Lemma populate_api_data_inner df sheet_name api_data :
  (forall code entry, api_data !! code = Some entry -> entry <> ∅) ->
  forall code entry,
    populate_api_data df sheet_name api_data !! code = Some entry -> entry <> ∅.
Proof.
  unfold populate_api_data.
  generalize (unique (dropna (List.map row_code df))). intros codes.
  revert api_data. induction codes as [|c codes IH]; intros api_data Inv; cbn.
  - exact Inv.
  - apply IH. now apply populate_code_inner.
Qed.

Lemma build_api_data_inner api_list output ip ws param code entry :
  build_api_data api_list output ip ws param !! code = Some entry -> entry <> ∅.
Proof.
  unfold build_api_data, sheets. cbn [foldl].
  revert code entry.
  repeat apply populate_api_data_inner.
  intros code entry. rewrite lookup_empty. discriminate.
Qed.

(** What the index holds under one of the five category names. *)
Lemma index_rows (api_list output ip ws param : Frame) (api_code sheet : string) F :
  In (sheet, F) (sheets api_list output ip ws param) ->
  sheet_of (build_api_data api_list output ip ws param) api_code sheet
  = match rows_of F api_code with
    | [] => None
    | r :: rest => Some (r :: rest)
    end.
Proof.
  - intros HF.
    assert (Hcase : forall (l : Frame) (n : string) (rows : Frame) (other : option Frame),
               (if bool_decide (l <> [] /\ n = n) then Some rows else other)
               = if bool_decide (l <> []) then Some rows else other).
    { intros l n rows other. apply (f_equal (fun b : bool => if b then _ else _)).
      apply bool_decide_ext. tauto. }
    unfold build_api_data, sheets in *. cbn [foldl].
    rewrite !populate_api_data_lookup.
    cbn [In] in HF.
    destruct HF as [E|[E|[E|[E|[E|[]]]]]]; injection E as <- <-;
      repeat (first [ rewrite Hcase
                    | rewrite (bool_decide_eq_false_2 (_ /\ _))
                        by (intros [_ Hn]; discriminate Hn) ]);
      (case_bool_decide as Hr;
       [ destruct (rows_of _ api_code); [contradiction | reflexivity]
       | destruct (rows_of _ api_code) as [|r rest];
         [ unfold sheet_of; rewrite lookup_empty; cbn; apply lookup_empty
         | first [discriminate Hr | exfalso; apply Hr; discriminate] ] ]).
Qed.

(** The index holds, for each of the five results and each code, exactly the
    rows of the result that carry the code, in the order of the result, when
    there are any, and nothing when there are none; it holds nothing under
    any other category name. *)
Theorem index_holds_the_rows_of_each_code
    (api_list output ip ws param : Frame) (api_code sheet : string) :
  (forall F, In (sheet, F) (sheets api_list output ip ws param) ->
     sheet_of (build_api_data api_list output ip ws param) api_code sheet
     = match rows_of F api_code with
       | [] => None
       | r :: rest => Some (r :: rest)
       end)
  /\ ((forall F, ~ In (sheet, F) (sheets api_list output ip ws param)) ->
      sheet_of (build_api_data api_list output ip ws param) api_code sheet = None).
Proof.
  split.
  - intros F HF. now apply index_rows.
  - intros Hno.
    destruct (sheet_of (build_api_data api_list output ip ws param) api_code sheet)
      as [df|] eqn:E; [|reflexivity].
    unfold build_api_data in E. apply index_lookup in E as [E|(F & HF & _)].
    + unfold sheet_of in E. rewrite lookup_empty in E. cbn in E.
      rewrite lookup_empty in E. discriminate E.
    + exfalso. exact (Hno F HF).
Qed.

Lemma index_rows_witness :
  sheet_of sample_api_data "A01" "參數驗證"
  = Some (List.firstn 2 sample_param_rows) /\
  sheet_of sample_api_data "A01" "輸出設定" = None /\
  sheet_of sample_api_data "A01" "no such sheet" = None.
Proof.
  destruct (index_holds_the_rows_of_each_code
              [sample_descriptor] [] [] [] sample_param_rows "A01" "參數驗證") as [H1 _].
  destruct (index_holds_the_rows_of_each_code
              [sample_descriptor] [] [] [] sample_param_rows "A01" "輸出設定") as [H2 _].
  destruct (index_holds_the_rows_of_each_code
              [sample_descriptor] [] [] [] sample_param_rows "A01" "no such sheet")
    as [_ H3].
  split; [|split].
  - apply (H1 sample_param_rows). cbn. tauto.
  - apply (H2 []). cbn. tauto.
  - apply H3. intros F HF. cbn in HF.
    destruct HF as [E|[E|[E|[E|[E|[]]]]]]; discriminate E.
Defined.

(** A code is a key of the index exactly when a row of one of the five
    results carries it; the dictionary under a key is never empty, and a row
    without code is under no key. *)
Theorem index_keys_are_the_codes_of_the_rows
    (api_list output ip ws param : Frame) (api_code : string) :
  (is_Some (build_api_data api_list output ip ws param !! api_code) <->
   exists sheet F r, In (sheet, F) (sheets api_list output ip ws param) /\
                     In r F /\ row_code r = Some api_code)
  /\ (forall entry, build_api_data api_list output ip ws param !! api_code = Some entry ->
        entry <> ∅).
Proof.
  split; [|intros entry; apply build_api_data_inner].
  split.
  - intros [entry He].
    pose proof (build_api_data_inner _ _ _ _ _ _ _ He) as Hne.
    apply map_choose in Hne as (sheet & df & Hdf).
    assert (H : sheet_of (build_api_data api_list output ip ws param) api_code sheet
                = Some df).
    { unfold sheet_of. rewrite He. exact Hdf. }
    unfold build_api_data in H. apply index_lookup in H as [H|(F & HF & E & Hn)].
    + unfold sheet_of in H. rewrite lookup_empty in H. cbn in H.
      rewrite lookup_empty in H. discriminate H.
    + subst df. apply rows_of_nonempty in Hn as (r & Hr & Hc).
      exists sheet, F, r. auto.
  - intros (sheet & F & r & HF & Hr & Hc).
    pose proof (index_rows api_list output ip ws param api_code sheet F HF) as H.
    assert (Hn : rows_of F api_code <> []) by (apply rows_of_nonempty; eauto).
    destruct (rows_of F api_code) as [|r0 rest]; [contradiction|].
    unfold sheet_of in H.
    destruct (build_api_data api_list output ip ws param !! api_code) as [entry|];
      [eauto|].
    cbn in H. rewrite lookup_empty in H. discriminate H.
Qed.

End IndexMore.

(** ** More on the renderer *)

Module RenderMore.
Import Order Tables.

Lemma group_of_missing api_hierarchy_df b :
  b.1 = None \/ b.2 = None -> group_of api_hierarchy_df b = [].
Proof.
  intros H. unfold group_of.
  induction api_hierarchy_df as [|r l IH]; [reflexivity|]. cbn.
  assert (key_eq (h_batch_code r) b.1 && key_eq (h_batch_desc r) b.2 = false) as ->.
  { destruct H as [-> | ->].
    - destruct (h_batch_code r); reflexivity.
    - rewrite andb_false_iff. right. destruct (h_batch_desc r); reflexivity. }
  exact IH.
Qed.

(** A batch of the list has no row exactly when its code or its description
    is NULL (the comparison with a missing value holds for no row); such a
    batch gets its heading, the batch table with the one row of placeholders,
    and no API section. *)
Theorem batch_with_missing_key_has_placeholder_row {rt : PyRuntime}
    (api_hierarchy_df : list HRow) (sql_map : gmap string string)
    (api_data : gmap string (gmap string Frame))
    (b : option string * option string) :
  In b (batch_list_of api_hierarchy_df) ->
  (group_of api_hierarchy_df b = [] <-> b.1 = None \/ b.2 = None)
  /\ (b.1 = None \/ b.2 = None ->
      batch_blocks api_hierarchy_df sql_map api_data b
      = Ok [Paragraph (Some "Heading 2") (batch_heading b);
            Table api_list_headers
              [[DEFAULT_NAN_DISPLAY; DEFAULT_NAN_DISPLAY; DEFAULT_NAN_DISPLAY]];
            blank_paragraph]).
Proof.
  intros Hb. split.
  - split; [|apply group_of_missing].
    intros Hg. apply (proj2 (batch_list_distinct api_hierarchy_df)) in Hb
      as (r & Hr & E).
    destruct b as [[c|] [d|]]; cbn; auto.
    exfalso. injection E as E1 E2.
    assert (Hin : In r (group_of api_hierarchy_df (Some c, Some d))).
    { unfold group_of. apply filter_In. split; [exact Hr|]. cbn.
      rewrite E1, E2. cbn. now rewrite !bool_decide_eq_true_2. }
    rewrite Hg in Hin. exact Hin.
  - intros Hm. unfold batch_blocks. rewrite (group_of_missing _ _ Hm). reflexivity.
Qed.

Lemma batch_with_missing_key_witness :
  @batch_blocks example_runtime hierarchy_with_null ∅ ∅ (Some "FI_03", None)
  = Ok [Paragraph (Some "Heading 2") "FI_03 (None)";
        Table api_list_headers [["NaN"; "NaN"; "NaN"]]; blank_paragraph].
Proof.
  apply (@batch_with_missing_key_has_placeholder_row example_runtime
           hierarchy_with_null ∅ ∅ (Some "FI_03", None)).
  - vm_compute. tauto.
  - right. reflexivity.
Defined.

End RenderMore.

Module CellsShown.
Import Tables.

Section WithRuntime.
Context {rt : PyRuntime}.

Lemma placeholder_shown : shown DEFAULT_NAN_DISPLAY.
Proof. discriminate. Qed.

Lemma present_shown v : present v = true -> shown (py_str v).
Proof.
  unfold present. rewrite andb_true_iff, bool_decide_eq_true. now intros [_ H].
Qed.

Lemma display_shown v : shown (display v).
Proof.
  unfold display. destruct (present v) eqn:E;
    [now apply present_shown | apply placeholder_shown].
Qed.

Lemma api_seq_cell_shown v text : api_seq_cell v = Ok text -> shown text.
Proof.
  unfold api_seq_cell.
  destruct (if notna v then _ else _) as [[|]|e]; cbn; [| |discriminate].
  - destruct (py_int v) as [z|e]; cbn; [|discriminate].
    intros [= <-]. apply Cells.dec_not_blank.
  - intros [= <-]. apply placeholder_shown.
Qed.

Lemma section_cell_shown header v text :
  section_cell header v = Ok text -> shown text.
Proof.
  unfold section_cell. destruct (present v) eqn:E;
    [|intros [= <-]; apply placeholder_shown].
  apply present_shown in E.
  destruct (bool_decide _); [|intros [= <-]; exact E].
  unfold int_or_str.
  destruct (py_float v) as [f|[]]; cbn; try discriminate;
    try (intros [= <-]; exact E).
  destruct (is_integer f); [|intros [= <-]; exact E].
  destruct (py_int v) as [z|[]]; cbn; try discriminate;
    try (intros [= <-]; exact E).
  intros [= <-]. apply Cells.dec_not_blank.
Qed.

Lemma detail_value_shown sql_map first param text :
  param <> "語法" -> detail_value sql_map first param = Ok text -> shown text.
Proof.
  intros Hp. unfold detail_value. destruct (decide _); [contradiction|].
  destruct (row_lookup first param); intros [= <-];
    [apply display_shown | apply placeholder_shown].
Qed.

End WithRuntime.

(** No cell of a data row of the batch table or of a sub-section table is
    blank: a missing or blank value always shows as the placeholder.  In the
    detail table the same holds for every row but the [語法] row, whose text
    comes from the properties file. *)
Theorem table_cells_are_never_blank {rt : PyRuntime} :
  (forall group_df rows,
      api_list_rows group_df = Ok rows -> Forall (Forall shown) rows)
  /\ (forall headers df rows,
      section_rows headers df = Ok rows -> Forall (Forall shown) rows)
  /\ (forall sql_map first param text,
      param <> "語法" ->
      detail_value sql_map first param = Ok text -> shown text).
Proof.
  split; [|split].
  - intros g rows. unfold api_list_rows. destruct g as [|r0 g].
    { intros [= <-]. repeat constructor; apply placeholder_shown. }
    intros H. apply for_each_inv in H. revert H. generalize (r0 :: g).
    intros xs H. induction H as [|r row xs rows' Hr _ IH]; constructor; [|exact IH].
    destruct (api_seq_cell (h_seq r)) as [c0|e] eqn:E; cbn in Hr; [|discriminate].
    injection Hr as <-. repeat constructor;
      [eapply api_seq_cell_shown; eassumption | apply display_shown..].
  - intros headers df rows. unfold section_rows.
    assert (Hp : Forall (Forall shown)
                   [List.map (fun _ => DEFAULT_NAN_DISPLAY) headers]).
    { constructor; [|constructor].
      induction headers; constructor; [apply placeholder_shown | assumption]. }
    destruct df as [[|r0 df]|]; [intros [= <-]; exact Hp | | intros [= <-]; exact Hp].
    intros H. apply for_each_inv in H. revert H. generalize (r0 :: df).
    intros xs H. induction H as [|r row xs rows' Hr _ IH]; constructor; [|exact IH].
    apply for_each_inv in Hr. clear -Hr.
    induction Hr as [|h t hs ts Ht _ IH]; constructor; [|exact IH].
    eapply section_cell_shown; eassumption.
  - intros sql_map first param text. apply detail_value_shown.
Qed.

Lemma table_cells_witness :
  Forall (Forall shown)
    [["1"; "id"; "NaN"; "key"]; ["2"; "name"; "NaN"; "NaN"]].
Proof.
  refine (proj1 (proj2 (@table_cells_are_never_blank example_runtime))
            ["序"; "屬性名"; "預設值"; "說明"]
            (sheet_of sample_api_data "A01" "參數驗證") _ _).
  vm_compute. reflexivity.
Defined.

End CellsShown.

Module SyntaxMore.

Lemma replace_absent p rest new s :
  PyStr.contains p s = false -> PyStr.replace (String p rest) new s = s.
Proof.
  unfold PyStr.replace. induction s as [|c s IH]; [reflexivity|].
  cbn [PyStr.contains PyStr.replace_from PyStr.startswith].
  destruct (ascii_dec p c); [discriminate|].
  intros H. now rewrite IH.
Qed.

Lemma decode_escapes_plain raw :
  PyStr.contains "\" raw = false -> decode_escapes raw = raw.
Proof.
  intros H. unfold decode_escapes.
  rewrite (replace_absent "\" "n" NL raw H).
  rewrite (replace_absent "\" "t" TAB raw H).
  apply (replace_absent "\" "=" "=" raw H).
Qed.

(** A text of the syntax map without backslash shows in the [語法] row as it
    is: decoding changes escapes only. *)
Theorem syntax_without_backslash_shows_as_it_is {rt : PyRuntime}
    (sql_map : gmap string string) (first : Row) (config_key_val : value)
    (raw : string) :
  row_lookup first "語法設定鍵值" = Some config_key_val ->
  present config_key_val = true ->
  sql_map !! py_str config_key_val = Some raw ->
  PyStr.contains "\" raw = false ->
  decode_escapes raw = raw /\ syntax_value sql_map first = Ok raw.
Proof.
  intros Hk Hp Hr Hb. split; [now apply decode_escapes_plain|].
  unfold syntax_value. rewrite Hk, Hp, Hr. cbn -[decode_escapes].
  now rewrite decode_escapes_plain.
Qed.

Lemma syntax_without_backslash_witness :
  @syntax_value example_runtime {[ "A01.sql" := "select 1 from t" ]} sample_descriptor
  = Ok "select 1 from t".
Proof.
  apply (@syntax_without_backslash_shows_as_it_is example_runtime
           {[ "A01.sql" := "select 1 from t" ]} sample_descriptor (VStr "A01.sql")
           "select 1 from t"); reflexivity.
Defined.

End SyntaxMore.

(** ** When the rendering succeeds and when it fails *)

Module RenderTotal.
Import Tables Index IndexMore.


Lemma for_each_raises {A B : Type} (f : A -> res B) (xs : list A) x :
  In x xs -> (exists e, f x = Raise e) -> exists e, for_each f xs = Raise e.
Proof.
  induction xs as [|y xs IH]; [contradiction|].
  intros [->|Hin] Hx; cbn.
  - destruct Hx as [e ->]. eauto.
  - destruct (f y) as [b|e]; cbn; [|eauto].
    destruct (IH Hin Hx) as [e ->]. eauto.
Qed.

Section WithRuntime.
Context {rt : PyRuntime}.






End WithRuntime.



End RenderTotal.

(** ** More on the run *)

Module RunMore.
Import DocumentClaims.

(** Unfolds a run down to the outcomes it meets. *)
Ltac unfold_run :=
  unfold generate_api_doc, try_finally, try_except, generate_body, no_data_document,
    full_document, connect, call, handle, raise, lift, close_connection,
    mbind, M_bind, emit, start.

(** A run that finds relevant codes, gets an answer to every query, reads the
    properties and opens the template: it sends the seven queries in order,
    then reads the properties, then opens the template, and when the
    rendering succeeds hands to [doc.save] the template followed by the
    rendered blocks, returning what the saving returns; when the rendering
    raises, the run raises the same exception and hands nothing to
    [doc.save].  Either way the connection is closed. *)
Theorem full_run_saves_template_and_blocks {rt : PyRuntime}
    (env : Env) (open : nat) (codes : list (option string))
    (api_hierarchy_df : list HRow) (api_list output ip ws param : Frame)
    (sql_map : gmap string string) (doc : document) :
  ds_connect (e_db env) = Ok () ->
  ds_relevant (e_db env) = Ok codes ->
  unique (dropna codes) <> [] ->
  ds_hierarchy (e_db env) = Ok api_hierarchy_df ->
  ds_api_list (e_db env) = Ok api_list ->
  ds_output (e_db env) = Ok output ->
  ds_ip (e_db env) = Ok ip ->
  ds_ws (e_db env) = Ok ws ->
  ds_param (e_db env) = Ok param ->
  load_sql_properties (e_props env) = Ok sql_map ->
  e_template env = Ok doc ->
  let run := generate_api_doc env (start open []) in
  match render api_hierarchy_df sql_map
          (build_api_data api_list output ip ws param) with
  | Ok blocks =>
      run.1 = e_save env /\
      saved (trace run.2) = [(doc ++ blocks)%list] /\
      exists tail, trace run.2 = (full_calls env doc blocks ++ tail)%list
  | Raise e =>
      run.1 = Raise e /\ saved (trace run.2) = []
  end
  /\ queries_sent (trace run.2) = all_queries
  /\ open_connections run.2 = open.
Proof.
  intros Hc Hr Hu Hh Ha Ho Hi Hw Hp Hl Ht. cbv zeta.
  unfold_run. rewrite Hc, Hr. cbn.
  destruct (unique (dropna codes)) as [|c rest]; [contradiction|].
  rewrite Hh, Ha, Ho, Hi, Hw, Hp, Hl, Ht. cbn.
  destruct (render api_hierarchy_df sql_map _) as [blocks|e]; cbn.
  - destruct (e_save env) as [[]|e]; cbn; repeat split; eauto.
  - repeat split.
Qed.

Lemma full_run_witness :
  (@generate_api_doc example_runtime sample_env (start 0 [])).1 = Ok () /\
  queries_sent (trace (@generate_api_doc example_runtime sample_env (start 0 [])).2)
  = all_queries.
Proof.
  pose proof (@full_run_saves_template_and_blocks example_runtime sample_env 0
                [Some "A01"; Some "B02"; Some "A01"] sample_hierarchy
                [sample_descriptor] [] [] [] sample_param_rows
                sample_sql_map [Paragraph (Some "Title") "API"]
                eq_refl eq_refl ltac:(discriminate) eq_refl eq_refl eq_refl eq_refl
                eq_refl eq_refl eq_refl eq_refl) as H.
  cbv zeta in H. destruct H as (H1 & H2 & _).
  split; [|exact H2].
  destruct (@render example_runtime sample_hierarchy sample_sql_map _);
    [exact (proj1 H1) | reflexivity].
Defined.

(** An ordering row of a batch whose cell cannot be made a sequence cell
    makes the rendering raise. *)
Lemma render_raises {rt : PyRuntime} api_hierarchy_df sql_map api_data r :
  In r api_hierarchy_df ->
  h_batch_code r <> None -> h_batch_desc r <> None ->
  (exists e, api_seq_cell (h_seq r) = Raise e) ->
  exists e, render api_hierarchy_df sql_map api_data = Raise e.
Proof.
  intros Hr Hc Hd He.
  destruct (h_batch_code r) as [c|] eqn:Ec; [|contradiction].
  destruct (h_batch_desc r) as [d|] eqn:Ed; [|contradiction].
  assert (Hb : In (Some c, Some d) (batch_list_of api_hierarchy_df)).
  { apply (proj2 (Order.batch_list_distinct api_hierarchy_df)).
    exists r. rewrite Ec, Ed. auto. }
  assert (Hg : In r (group_of api_hierarchy_df (Some c, Some d))).
  { unfold group_of. apply filter_In. split; [exact Hr|]. cbn.
    rewrite Ec, Ed. cbn. now rewrite !bool_decide_eq_true_2. }
  assert (Hrows : exists e, api_list_rows (group_of api_hierarchy_df (Some c, Some d))
                            = Raise e).
  { unfold api_list_rows.
    destruct (group_of api_hierarchy_df (Some c, Some d)) as [|r0 g] eqn:Eg;
      [contradiction|].
    apply (RenderTotal.for_each_raises _ _ r Hg).
    destruct He as [e ->]. cbn. eauto. }
  unfold render.
  destruct (RenderTotal.for_each_raises
              (batch_blocks api_hierarchy_df sql_map api_data)
              (batch_list_of api_hierarchy_df) (Some c, Some d) Hb) as [e ->];
    [|cbn; eauto].
  unfold batch_blocks. destruct Hrows as [e ->]. cbn. eauto.
Qed.

(** A text in [API順序] that [float()] cannot read, a blank one for instance,
    aborts the run: in a run that otherwise finds everything, an ordering
    row of a batch with such a sequence value makes the run raise, nothing
    is handed to [doc.save], and the connection is closed. *)
Theorem unreadable_sequence_aborts_the_run {rt : PyRuntime}
    (env : Env) (open : nat) (codes : list (option string))
    (api_hierarchy_df : list HRow) (api_list output ip ws param : Frame)
    (sql_map : gmap string string) (doc : document) (r : HRow) (s : string) :
  ds_connect (e_db env) = Ok () ->
  ds_relevant (e_db env) = Ok codes ->
  unique (dropna codes) <> [] ->
  ds_hierarchy (e_db env) = Ok api_hierarchy_df ->
  ds_api_list (e_db env) = Ok api_list ->
  ds_output (e_db env) = Ok output ->
  ds_ip (e_db env) = Ok ip ->
  ds_ws (e_db env) = Ok ws ->
  ds_param (e_db env) = Ok param ->
  load_sql_properties (e_props env) = Ok sql_map ->
  e_template env = Ok doc ->
  In r api_hierarchy_df ->
  h_batch_code r <> None -> h_batch_desc r <> None ->
  h_seq r = VStr s -> parse_float s = None ->
  let run := generate_api_doc env (start open []) in
  (exists e, run.1 = Raise e) /\
  saved (trace run.2) = [] /\
  open_connections run.2 = open.
Proof.
  intros Hc Hr Hu Hh Ha Ho Hi Hw Hp Hl Ht Hin Hbc Hbd Hs Hf.
  destruct (render_raises api_hierarchy_df sql_map
              (build_api_data api_list output ip ws param) r Hin Hbc Hbd) as [e He].
  { unfold api_seq_cell. rewrite Hs. cbn. rewrite Hf. cbn. eauto. }
  cbv zeta. unfold_run. rewrite Hc, Hr. cbn.
  destruct (unique (dropna codes)) as [|c rest]; [contradiction|].
  rewrite Hh, Ha, Ho, Hi, Hw, Hp, Hl, Ht. cbn.
  destruct (render api_hierarchy_df sql_map _) as [blocks|e'] eqn:E; cbn.
  - discriminate He.
  - repeat split. eauto.
Qed.

Lemma unreadable_sequence_witness :
  (exists e, (@generate_api_doc example_runtime blank_sequence_env (start 0 [])).1
             = Raise e) /\
  saved (trace (@generate_api_doc example_runtime blank_sequence_env (start 0 [])).2)
  = [].
Proof.
  destruct (@unreadable_sequence_aborts_the_run example_runtime blank_sequence_env 0
              [Some "A01"] _ [sample_descriptor] [] [] [] []
              {[ "A01.sql" := "select 1" ]} [Paragraph (Some "Title") "API"]
              {| h_batch_code := Some "FI_02"; h_batch_desc := Some "alpha";
                 h_seq := VStr ""; h_api_code := Some "A01";
                 h_api_desc := VStr "query" |} ""
              eq_refl eq_refl ltac:(discriminate) eq_refl eq_refl eq_refl eq_refl
              eq_refl eq_refl eq_refl eq_refl ltac:(left; reflexivity)
              ltac:(discriminate) ltac:(discriminate) eq_refl eq_refl)
    as (H1 & H2 & _).
  split; [exact H1 | exact H2].
Defined.

End RunMore.

Module RunDiscipline.
Import RunMore.

(** Splits the next outcome a run meets. *)
Ltac next_outcome :=
  match goal with
  | |- context [match ?x with Ok _ => _ | Raise _ => _ end] =>
      destruct x as [?|?] eqn:?; cbn
  | |- context [match unique (dropna ?c) with [] => _ | _ :: _ => _ end] =>
      destruct (unique (dropna c)) as [|? ?] eqn:?; cbn
  end.

(** A run hands at most one document to [doc.save], and only as its last
    step: either nothing is handed over and the run raises, or the one
    document handed over begins with the blocks of the template and the run
    returns what the saving returns.  So a run that returns normally has saved
    a document, and a failure before the saving leaves nothing handed over. *)
Theorem run_saves_once_or_raises {rt : PyRuntime} (env : Env) (open : nat) :
  let run := generate_api_doc env (start open []) in
  (saved (trace run.2) = [] /\ exists e, run.1 = Raise e)
  \/ (exists doc rest,
        e_template env = Ok doc /\
        saved (trace run.2) = [(doc ++ rest)%list] /\
        run.1 = e_save env).
Proof.
  cbv zeta. unfold_run.
  destruct env as [p tp op pp db props template save].
  destruct db as [c rel hier al out ip ws par]. cbn.
  repeat (next_outcome; try (left; split; [reflexivity | eauto]; fail)).
  all: right; eexists _, _; split; [reflexivity|]; split; reflexivity.
Qed.

(** The queries go out in the fixed order and stop at the first that fails:
    the queries a run has sent are a prefix of the seven.  A query after the
    first is sent only when the first returned a code, and the properties
    file is read only after all seven. *)
Theorem run_sends_queries_in_order {rt : PyRuntime} (env : Env) (open : nat) :
  let run := generate_api_doc env (start open []) in
  queries_sent (trace run.2) `prefix_of` all_queries
  /\ (In (EvLoadProperties (e_props_path env)) (trace run.2) ->
      queries_sent (trace run.2) = all_queries)
  /\ ((1 < length (queries_sent (trace run.2)))%nat ->
      exists codes c rest,
        ds_relevant (e_db env) = Ok codes /\ unique (dropna codes) = c :: rest).
Proof.
  cbv zeta. unfold_run.
  destruct env as [p tp op pp db props template save].
  destruct db as [c rel hier al out ip ws par]. cbn.
  repeat next_outcome.
  all: split; [eexists; reflexivity|].
  all: split;
    [ intros H; first [reflexivity | cbn in H; intuition discriminate]
    | intros H; cbn in H;
      first [lia | eexists _, _, _; split; [reflexivity | eassumption]] ].
Qed.

End RunDiscipline.

(** ** The make-up of the rendered blocks *)

Module Census.
Import Tables Emission DocumentClaims.

Lemma well_counted_nil : well_counted [].
Proof. repeat split. Qed.

Lemma well_counted_app (a b : document) :
  well_counted a -> well_counted b -> well_counted (a ++ b).
Proof.
  unfold well_counted. intros (A1 & A2 & A3) (B1 & B2 & B3).
  rewrite tables_app, !headings_app, !length_app. lia.
Qed.

Lemma well_counted_concat (parts : list document) :
  Forall well_counted parts -> well_counted (concat parts).
Proof.
  induction 1; cbn [concat]; [apply well_counted_nil | now apply well_counted_app].
Qed.

Section WithRuntime.
Context {rt : PyRuntime}.

Lemma api_blocks_counted sql_map api_data r a :
  api_blocks sql_map api_data r = Ok a -> well_counted a.
Proof.
  unfold api_blocks.
  destruct (h_api_code r) as [api_code|]; [|intros [= <-]; apply well_counted_nil].
  case_bool_decide; [intros [= <-]; apply well_counted_nil|].
  unfold detail_blocks.
  destruct (detail_rows _ _) as [d|e]; cbn; [|discriminate].
  unfold section_blocks.
  repeat (match goal with
          | |- context [section_rows ?h ?df] =>
              destruct (section_rows h df) as [?|?]; cbn; [|discriminate]
          end).
  intros [= <-]. repeat split.
Qed.

Lemma batch_blocks_counted api_hierarchy_df sql_map api_data b blk :
  batch_blocks api_hierarchy_df sql_map api_data b = Ok blk -> well_counted blk.
Proof.
  unfold batch_blocks.
  destruct (api_list_rows _) as [rows|e]; cbn [mbind res_bind]; [|discriminate].
  destruct (for_each _ _) as [apis|e] eqn:Ha; cbn [mbind res_bind]; [|discriminate].
  intros [= <-]. apply for_each_inv in Ha.
  change (?x :: ?y :: ?z :: concat apis) with ([x; y; z] ++ concat apis)%list.
  apply well_counted_app; [repeat split|].
  apply well_counted_concat.
  induction Ha as [|r a g apis' Hr _ IH]; constructor; [|exact IH].
  eapply api_blocks_counted; eassumption.
Qed.

End WithRuntime.

(** What a successful rendering appends has one table for each batch
    heading and five for each API heading, four sub-section headings for each
    API heading, and no block besides: three blocks with each batch heading
    and fifteen with each API heading. *)
Theorem rendered_blocks_are_well_counted {rt : PyRuntime}
    (api_hierarchy_df : list HRow) (sql_map : gmap string string)
    (api_data : gmap string (gmap string Frame)) (blocks : document) :
  render api_hierarchy_df sql_map api_data = Ok blocks ->
  length (tables blocks)
  = (length (headings "Heading 2" blocks)
     + 5 * length (headings "Heading 4" blocks))%nat
  /\ length (headings "Heading 5" blocks)
     = (4 * length (headings "Heading 4" blocks))%nat
  /\ length blocks
     = (3 * length (headings "Heading 2" blocks)
        + 15 * length (headings "Heading 4" blocks))%nat
  /\ length (headings "Heading 2" blocks)
     = length (batch_list_of api_hierarchy_df).
Proof.
  intros H.
  assert (Hc : well_counted blocks).
  { unfold render in H.
    destruct (for_each _ _) as [bs|e] eqn:Hb; cbn in H; [|discriminate].
    injection H as <-. apply for_each_inv in Hb.
    apply well_counted_concat.
    induction Hb as [|b blk l bs' Hblk _ IH]; constructor; [|exact IH].
    eapply batch_blocks_counted; eassumption. }
  destruct Hc as (H1 & H2 & H3).
  repeat split; try assumption.
  apply render_shape in H as (Hh & _). rewrite Hh. apply length_map.
Qed.

Lemma rendered_blocks_witness :
  exists blocks,
    @render example_runtime sample_hierarchy sample_sql_map sample_api_data = Ok blocks /\
    length (tables blocks) = 17%nat /\ length blocks = 51%nat.
Proof.
  destruct (@render example_runtime sample_hierarchy sample_sql_map sample_api_data)
    as [blocks|e] eqn:E; [|discriminate E].
  exists blocks. split; [reflexivity|].
  destruct (@rendered_blocks_are_well_counted example_runtime sample_hierarchy
              sample_sql_map sample_api_data blocks E) as (H1 & _ & H3 & _).
  rewrite H1, H3. vm_compute in E. injection E as <-. split; reflexivity.
Defined.

End Census.

(** ** Trimming twice *)

Module StripFacts.
Import PyStr PyStrFacts.

Lemma lstrip_short_upto n :
  forall s, (String.length s <= n)%nat ->
            (String.length (lstrip s) <= String.length s)%nat.
Proof.
  induction n as [|n IH]; intros s Hn.
  - destruct s; [cbn; lia | cbn in Hn; lia].
  - destruct s as [|c1 s1]; [cbn; lia|].
    cbn [lstrip]. destruct (ascii_space c1).
    { specialize (IH s1). cbn in *. lia. }
    destruct s1 as [|c2 s2]; [lia|].
    destruct (space2 c1 c2).
    { specialize (IH s2). cbn in *. lia. }
    destruct s2 as [|c3 s3]; [lia|].
    destruct (space3 c1 c2 c3); [|lia].
    specialize (IH s3). cbn in *. lia.
Qed.

Lemma lstrip_short s : (String.length (lstrip s) <= String.length s)%nat.
Proof. apply (lstrip_short_upto (String.length s)). lia. Qed.

(** White space in front of a text is trimmed with it. *)
Lemma lstrip_blank_app_upto n :
  forall a b, (String.length a <= n)%nat -> blank a = true ->
              lstrip (a +:+ b) = lstrip b.
Proof.
  unfold blank. induction n as [|n IH]; intros a b Hn Hb.
  - destruct a; [reflexivity | cbn in Hn; lia].
  - destruct a as [|c1 a1]; [reflexivity|].
    change (String c1 a1 +:+ b) with (String c1 (a1 +:+ b)).
    cbn [lstrip] in *. destruct (ascii_space c1).
    { apply IH; [cbn in Hn; lia | exact Hb]. }
    destruct a1 as [|c2 a2]; [discriminate|].
    change (String c2 a2 +:+ b) with (String c2 (a2 +:+ b)). cbv beta iota.
    destruct (space2 c1 c2).
    { apply IH; [cbn in Hn; lia | exact Hb]. }
    destruct a2 as [|c3 a3]; [discriminate|].
    change (String c3 a3 +:+ b) with (String c3 (a3 +:+ b)). cbv beta iota.
    destruct (space3 c1 c2 c3); [|discriminate].
    apply IH; [cbn in Hn; lia | exact Hb].
Qed.

Lemma blank_app a b : blank a = true -> blank b = true -> blank (a +:+ b) = true.
Proof.
  intros Ha Hb. unfold blank.
  rewrite (lstrip_blank_app_upto (String.length a)) by (lia || exact Ha). exact Hb.
Qed.

(** What the right trimming cuts is white space. *)
Lemma rstrip_cut s : exists w, s = rstrip s +:+ w /\ blank w = true.
Proof.
  induction s as [|c s (w & Hs & Hw)]; [exists EmptyString; auto|].
  cbn [rstrip]. destruct (blank (String c s)) eqn:E.
  - exists (String c s). auto.
  - exists w. split; [|exact Hw].
    change (String c (rstrip s) +:+ w) with (String c (rstrip s +:+ w)).
    now rewrite <- Hs.
Qed.

Lemma rstrip_not_blank s : blank s = false -> blank (rstrip s) = false.
Proof.
  intros Hs. destruct (blank (rstrip s)) eqn:E; [|reflexivity].
  destruct (rstrip_cut s) as (w & Hw & Hb).
  rewrite Hw, (blank_app _ _ E Hb) in Hs. discriminate Hs.
Qed.

Lemma rstrip_idem s : rstrip (rstrip s) = rstrip s.
Proof.
  induction s as [|c s IH]; [reflexivity|].
  cbn [rstrip]. destruct (blank (String c s)) eqn:E; [reflexivity|].
  pose proof (rstrip_not_blank _ E) as E'. cbn [rstrip] in E'. rewrite E in E'.
  cbn [rstrip]. rewrite E', IH. reflexivity.
Qed.

(** A text without white space in front has none after the right trimming. *)
Lemma lstrip_rstrip s : lstrip s = s -> lstrip (rstrip s) = rstrip s.
Proof.
  intros Hs. destruct s as [|c1 s1]; [reflexivity|].
  assert (Hnb : blank (String c1 s1) = false) by (unfold blank; now rewrite Hs).
  cbn [rstrip]. rewrite Hnb.
  cbn [lstrip] in Hs.
  destruct (ascii_space c1) eqn:E1.
  { pose proof (lstrip_short s1) as H. rewrite Hs in H. cbn in H. lia. }
  cbn [lstrip]. rewrite E1.
  destruct s1 as [|c2 s2]; [reflexivity|].
  cbn [rstrip]. destruct (blank (String c2 s2)); [reflexivity|].
  destruct (space2 c1 c2) eqn:E2.
  { pose proof (lstrip_short s2) as H. rewrite Hs in H. cbn in H. lia. }
  destruct s2 as [|c3 s3]; [reflexivity|].
  cbn [rstrip]. destruct (blank (String c3 s3)); [reflexivity|].
  destruct (space3 c1 c2 c3) eqn:E3; [|reflexivity].
  pose proof (lstrip_short s3) as H. rewrite Hs in H. cbn in H. lia.
Qed.

(** [s.strip().strip() == s.strip()] *)
Lemma strip_idem s : strip (strip s) = strip s.
Proof.
  unfold strip.
  rewrite (lstrip_rstrip (lstrip s)) by apply lstrip_idem.
  apply rstrip_idem.
Qed.

Lemma contains_lstrip_upto c n :
  forall s, (String.length s <= n)%nat ->
            contains c (lstrip s) = true -> contains c s = true.
Proof.
  induction n as [|n IH]; intros s Hn.
  - destruct s; [auto | cbn in Hn; lia].
  - destruct s as [|c1 s1]; [auto|].
    assert (Hstep : forall t, (String.length t <= n)%nat ->
                    contains c (lstrip t) = true ->
                    contains c t = true) by exact IH.
    cbn [lstrip]. destruct (ascii_space c1).
    { intros H. cbn [contains]. destruct (ascii_dec c c1); [reflexivity|].
      apply IH; [cbn in Hn; lia | exact H]. }
    destruct s1 as [|c2 s2]; [auto|].
    destruct (space2 c1 c2).
    { intros H. cbn [contains]. destruct (ascii_dec c c1); [reflexivity|].
      destruct (ascii_dec c c2); [reflexivity|].
      apply IH; [cbn in Hn; lia | exact H]. }
    destruct s2 as [|c3 s3]; [auto|].
    destruct (space3 c1 c2 c3); [|auto].
    intros H. cbn [contains]. destruct (ascii_dec c c1); [reflexivity|].
    destruct (ascii_dec c c2); [reflexivity|].
    destruct (ascii_dec c c3); [reflexivity|].
    apply IH; [cbn in Hn; lia | exact H].
Qed.

Lemma contains_rstrip c s : contains c (rstrip s) = true -> contains c s = true.
Proof.
  induction s as [|b s IH]; [auto|].
  cbn [rstrip]. destruct (blank (String b s)); [discriminate|].
  cbn [contains]. destruct (ascii_dec c b); auto.
Qed.

(** Trimming adds no character. *)
Lemma contains_strip c s : contains c s = false -> contains c (strip s) = false.
Proof.
  intros H. destruct (contains c (strip s)) eqn:E; [|reflexivity].
  unfold strip in E. apply contains_rstrip in E.
  apply (contains_lstrip_upto c (String.length s)) in E; [congruence | lia].
Qed.

End StripFacts.

(** ** The keys of a loaded dictionary *)

Module LoaderMore.
Import PyStr PyStrFacts StripFacts LoaderFacts.

Lemma hash_plain : plain "#".
Proof. unfold plain. vm_compute. split; reflexivity. Qed.

(** The trimmed text begins as the left-trimmed text does. *)
Lemma startswith_strip p s :
  startswith (String p EmptyString) (strip s)
  = startswith (String p EmptyString) (lstrip s).
Proof.
  unfold strip. destruct (lstrip s) as [|c t] eqn:E; [reflexivity|].
  cbn [rstrip]. unfold blank. rewrite <- E, lstrip_idem, E. reflexivity.
Qed.

Lemma hash_first_upto n :
  forall a b, (String.length a <= n)%nat ->
              startswith "#" (lstrip a) = true ->
              startswith "#" (lstrip (a +:+ b)) = true.
Proof.
  assert (Hh : forall t u, startswith "#" (String "#" t) = true ->
                           startswith "#" (lstrip (String "#" u)) = true).
  { intros t u _. now rewrite (lstrip_plain "#" u hash_plain). }
  assert (Hc : forall c t, startswith "#" (String c t) = true -> c = "#"%char).
  { intros c t. cbn [startswith].
    destruct (ascii_dec "#" c) as [E|E]; [intros _; now symmetry | intros H; discriminate H]. }
  induction n as [|n IH]; intros a b Hn.
  - destruct a; [cbn; discriminate | cbn in Hn; lia].
  - destruct a as [|c1 a1]; [cbn; discriminate|].
    change (String c1 a1 +:+ b) with (String c1 (a1 +:+ b)).
    cbn [lstrip]. destruct (ascii_space c1) eqn:E1.
    { apply IH. cbn in Hn. lia. }
    destruct a1 as [|c2 a2].
    { intros H. apply Hc in H. subst c1.
      change (startswith "#" (lstrip (String "#" (EmptyString +:+ b))) = true).
      now rewrite (lstrip_plain "#" _ hash_plain). }
    change (String c2 a2 +:+ b) with (String c2 (a2 +:+ b)). cbv beta iota.
    destruct (space2 c1 c2) eqn:E2.
    { apply IH. cbn in Hn. lia. }
    destruct a2 as [|c3 a3].
    { intros H. apply Hc in H. subst c1.
      change (startswith "#" (lstrip (String "#" (String c2 (EmptyString +:+ b)))) = true).
      now rewrite (lstrip_plain "#" _ hash_plain). }
    change (String c3 a3 +:+ b) with (String c3 (a3 +:+ b)). cbv beta iota.
    destruct (space3 c1 c2 c3) eqn:E3.
    { apply IH. cbn in Hn. lia. }
    intros H. apply Hc in H. subst c1. reflexivity.
Qed.

Lemma split1_key c s k v : split1 c s = [k; v] ->
  s = k +:+ String c v /\ contains c k = false.
Proof.
  intros H. destruct (contains c s) eqn:E.
  - destruct (split1_found c s E) as (k' & v' & H' & Hs & Hk).
    rewrite H in H'. injection H' as -> ->. auto.
  - rewrite (split1_missing c s E) in H. discriminate H.
Qed.

(** What a line gives is trimmed, and its key has no [=] and does not begin
    with [#]. *)
Lemma line_pair_trimmed line k v :
  line_pair line = Some (k, v) ->
  strip k = k /\ strip v = v /\ contains "=" k = false /\ startswith "#" k = false.
Proof.
  unfold line_pair. case_bool_decide; [discriminate|].
  destruct (startswith "#" (strip line)) eqn:Hs; [discriminate|].
  destruct (split1 "=" line) as [|key [|val [|? ?]]] eqn:E; try discriminate.
  intros [= <- <-]. apply split1_key in E as [Hl Hk].
  split; [apply strip_idem|]. split; [apply strip_idem|].
  split; [now apply contains_strip|].
  destruct (startswith "#" (strip key)) eqn:Hh; [|reflexivity].
  rewrite startswith_strip in Hh, Hs.
  rewrite Hl, (hash_first_upto (String.length key) key _ ltac:(lia) Hh) in Hs.
  discriminate Hs.
Qed.

Lemma last_value_in k pairs v : last_value k pairs = Some v -> In (k, v) pairs.
Proof.
  induction pairs as [|[k' v'] rest IH]; cbn; [discriminate|].
  destruct (last_value k rest) as [w|].
  - intros [= <-]. right. now apply IH.
  - destruct (decide (k = k')) as [->|]; [|discriminate].
    intros [= <-]. now left.
Qed.

(** An entry of a loaded dictionary is what a line of the file gives. *)
Lemma loaded_entry_of_line (f : file) (sql_dict : gmap string string) key val :
  load_sql_properties f = Ok sql_dict ->
  sql_dict !! key = Some val ->
  exists line, line_pair line = Some (key, val).
Proof.
  intros Hl Hk.
  destruct f as [|e|s]; cbn in Hl; try discriminate.
  rewrite load_lines_pairs in Hl. injection Hl as <-.
  rewrite store_lookup, lookup_empty in Hk.
  destruct (last_value key _) as [w|] eqn:E; [|discriminate].
  injection Hk as ->. apply last_value_in in E.
  apply list_elem_of_In, list_elem_of_omap in E as (line & _ & Hp). eauto.
Qed.

(** Every key and every value of a loaded dictionary is trimmed, and no key
    has an [=] or begins with [#]. *)
Theorem loaded_keys_and_values_are_trimmed (f : file) (sql_dict : gmap string string) :
  load_sql_properties f = Ok sql_dict ->
  forall key val, sql_dict !! key = Some val ->
    strip key = key /\ strip val = val /\
    contains "=" key = false /\ startswith "#" key = false.
Proof.
  intros Hl key val Hk.
  destruct (loaded_entry_of_line f sql_dict key val Hl Hk) as [line Hp].
  now apply line_pair_trimmed in Hp.
Qed.

Lemma loaded_keys_witness :
  strip "b" = "b" /\ strip "x=y" = "x=y" /\
  contains "=" "b" = false /\ startswith "#" "b" = false.
Proof.
  refine (loaded_keys_and_values_are_trimmed (Text sample_properties) _ _ "b" "x=y" _).
  - vm_compute. reflexivity.
  - reflexivity.
Defined.

(** A [語法設定鍵值] with white space around it is never found in a loaded
    dictionary, whose keys are trimmed: the [語法] row shows the not-found
    text. *)
Theorem untrimmed_syntax_key_is_not_found {rt : PyRuntime}
    (f : file) (sql_map : gmap string string) (first : Row) (config_key_val : value) :
  load_sql_properties f = Ok sql_map ->
  row_lookup first "語法設定鍵值" = Some config_key_val ->
  present config_key_val = true ->
  strip (py_str config_key_val) <> py_str config_key_val ->
  sql_map !! py_str config_key_val = None /\
  syntax_value sql_map first = Ok DEFAULT_SQL_NOT_FOUND.
Proof.
  intros Hl Hk Hp Hs.
  assert (Hn : sql_map !! py_str config_key_val = None).
  { destruct (sql_map !! py_str config_key_val) as [v|] eqn:E; [|reflexivity].
    exfalso. apply Hs.
    destruct (loaded_entry_of_line f sql_map _ _ Hl E) as [line Hline].
    now apply line_pair_trimmed in Hline. }
  split; [exact Hn|].
  unfold syntax_value. rewrite Hk, Hp, Hn. reflexivity.
Qed.

Lemma untrimmed_syntax_key_witness :
  @syntax_value example_runtime {[ "A01.sql" := "select 1" ]}
    {| row_code := Some "A01"; row_cells := {[ "語法設定鍵值" := VStr "A01.sql " ]} |}
  = Ok DEFAULT_SQL_NOT_FOUND.
Proof.
  refine (proj2 (@untrimmed_syntax_key_is_not_found example_runtime
            (Text "A01.sql = select 1") {[ "A01.sql" := "select 1" ]}
            {| row_code := Some "A01";
               row_cells := {[ "語法設定鍵值" := VStr "A01.sql " ]} |}
            (VStr "A01.sql ") _ eq_refl eq_refl _)).
  - vm_compute. reflexivity.
  - discriminate.
Defined.

End LoaderMore.

(** ** The upload handler *)

Module UploadFacts.
Import RunMore.

Section WithRuntime.
Context {rt : PyRuntime}.

(** A run leaves as many connections open as it found. *)
Lemma run_releases env open calls :
  open_connections (generate_api_doc env (start open calls)).2 = open.
Proof.
  pose proof (Run.body_connection env (start open calls)) as Hc.
  unfold generate_api_doc, try_finally, try_except.
  assert (Hh : forall e s, handle e s = (Raise e, emit (EvLogError (clause_of e)) s))
    by reflexivity.
  destruct (ds_connect (e_db env)) as [[]|e].
  - destruct Hc as [Hc Ho].
    destruct (generate_body env (start open calls)) as [[[]|e] s'];
      rewrite ?Hh; cbn in *; unfold close_connection; cbn;
      rewrite Hc; cbn; rewrite Ho; reflexivity.
  - rewrite Hc, Hh. reflexivity.
Qed.

(** A run that returns normally has handed a document to [doc.save] at its
    output path, and the saving succeeded. *)
Lemma run_ok_saved env open :
  (generate_api_doc env (start open [])).1 = Ok () ->
  e_save env = Ok () /\
  exists doc, In (EvSave (e_output_path env) doc)
                 (trace (generate_api_doc env (start open [])).2).
Proof.
  unfold_run.
  destruct env as [p tp op pp db props template save].
  destruct db as [c rel hier al out ip ws par]. cbn.
  repeat (RunDiscipline.next_outcome; try (intros H; discriminate H)).
  all: intros _; split; [try reflexivity; match goal with u : unit |- _ => now destruct u end|];
    eexists; cbn; eauto 20.
Qed.

(** A run raises the failure of the connection. *)
Lemma run_connect_fails env open calls e :
  ds_connect (e_db env) = Raise e ->
  (generate_api_doc env (start open calls)).1 = Raise e.
Proof.
  intros H. unfold_run. rewrite H. reflexivity.
Qed.

End WithRuntime.
End UploadFacts.

Module Upload.
Import UploadFacts.

(** The status of what [translate] gives for an exception of the layers
    below. *)
Lemma translate_status sv e :
  status_code (translate sv (Below e)) = 400
  \/ status_code (translate sv (Below e)) = 500.
Proof. destruct e; cbn; auto. Qed.

(** Unfolds the handler down to the answers of the server. *)
Ltac unfold_upload :=
  unfold upload_files, upload_body, store_upload, fresh, cleanup; cbn.

(** The handler answers with the file or raises an [HTTPException] of status
    400 or 500, never an exception of the layers below, and leaves no
    connection open.  When it answers with the file, both uploads were not
    empty, the file is [API_規格書.docx] in the directory of the temporary
    files, and the run handed a document to [doc.save] at that very path. *)
Theorem upload_answers_with_the_file_or_an_http_error {rt : PyRuntime}
    (req : Request) (sv : Server) (files : gset string) (open : nat) :
  let answer := upload_files req sv (fresh files open) in
  db_open answer.2 = open /\
  match answer.1 with
  | inl response =>
      response = {| response_path := in_dir (tmp_dir sv) output_filename;
                    response_filename := output_filename;
                    response_media_type := docx_media_type |}
      /\ word_template req <> EmptyString
      /\ sql_properties req <> EmptyString
      /\ sv_save sv = Ok ()
      /\ exists doc, In (EvSave (response_path response) doc) (run_calls answer.2)
  | inr (Http h) => status_code h = 400 \/ status_code h = 500
  | inr (Below _) => False
  end.
Proof.
  cbv zeta. unfold_upload.
  destruct (tmp_word sv) as [name1|e1]; cbn; [|split; [reflexivity|apply translate_status]].
  case_bool_decide as Hw; cbn; [auto|].
  destruct (write_word sv) as [[]|e]; cbn; [|split; [reflexivity|apply translate_status]].
  destruct (tmp_props sv) as [name2|e2]; cbn; [|split; [reflexivity|apply translate_status]].
  case_bool_decide as Hp; cbn; [auto|].
  destruct (write_props sv) as [[]|e]; cbn; [|split; [reflexivity|apply translate_status]].
  match goal with
  | |- context [generate_api_doc ?env (start open [])] =>
      pose proof (run_releases env open []) as Hrel;
      pose proof (run_ok_saved env open) as Hok;
      destruct (generate_api_doc env (start open [])) as [[[]|e] s'] eqn:E
  end; cbn in *.
  - destruct (Hok eq_refl) as [Hsave Hdoc]. auto 10.
  - split; [exact Hrel | apply translate_status].
Qed.

Lemma upload_answers_witness :
  exists response,
    (@upload_files example_runtime sample_request sample_server (fresh ∅ 0)).1
    = inl response /\ response_path response = "/tmp/API_規格書.docx".
Proof.
  pose proof (@upload_answers_with_the_file_or_an_http_error example_runtime
                sample_request sample_server ∅ 0) as [_ H].
  destruct ((@upload_files example_runtime sample_request sample_server (fresh ∅ 0)).1)
    as [response|x] eqn:E; [|vm_compute in E; discriminate E].
  exists response. split; [reflexivity|].
  destruct H as [-> _]. reflexivity.
Defined.

End Upload.

Module UploadMore.
Import UploadFacts Upload.

Lemma run_first_query_fails {rt : PyRuntime} env open calls e :
  ds_connect (e_db env) = Ok () ->
  ds_relevant (e_db env) = Raise e ->
  (generate_api_doc env (start open calls)).1 = Raise e.
Proof.
  intros Hc Hr. RunMore.unfold_run. rewrite Hc, Hr. reflexivity.
Qed.

(** An empty upload is refused with status 400 and type [EmptyFile] before
    the run starts: no call goes to the data source.  The temporary file
    created for the empty upload is left behind, its path not being recorded
    yet when the exception is raised; with an empty properties file, the
    temporary file of the template, stored before, is removed. *)
Theorem empty_upload_is_refused_before_the_run {rt : PyRuntime}
    (req : Request) (sv : Server) (files : gset string) (open : nat) :
  let answer := upload_files req sv (fresh files open) in
  (forall name,
      word_template req = EmptyString -> tmp_word sv = Ok name ->
      answer.1 = inr (Http {| status_code := 400;
                              detail_message := "上傳的 Word 範本檔案為空。";
                              detail_type := "EmptyFile" |})
      /\ run_calls answer.2 = []
      /\ present_files answer.2 = {[ in_dir (tmp_dir sv) name ]} ∪ files)
  /\ (forall name1 name2,
      word_template req <> EmptyString -> tmp_word sv = Ok name1 ->
      write_word sv = Ok () ->
      sql_properties req = EmptyString -> tmp_props sv = Ok name2 ->
      answer.1 = inr (Http {| status_code := 400;
                              detail_message := "上傳的 SQL 設定檔為空。";
                              detail_type := "EmptyFile" |})
      /\ run_calls answer.2 = []
      /\ (name1 <> name2 -> in_dir (tmp_dir sv) name2 ∈ present_files answer.2)
      /\ (remove_ok sv (in_dir (tmp_dir sv) name1) = true ->
          in_dir (tmp_dir sv) name1 ∉ present_files answer.2)).
Proof.
  cbv zeta. split.
  - intros name Hw Hn. unfold_upload. rewrite Hn, Hw. cbn.
    rewrite (bool_decide_eq_true_2 (EmptyString = EmptyString) eq_refl). cbn. auto.
  - intros name1 name2 Hw Hn1 Hw1 Hp Hn2. unfold_upload.
    rewrite Hn1. cbn. rewrite bool_decide_eq_false_2 by exact Hw.
    rewrite Hw1, Hn2, Hp. cbn.
    rewrite (bool_decide_eq_true_2 (EmptyString = EmptyString) eq_refl). cbn.
    split; [reflexivity|]. split; [reflexivity|].
    unfold remove_if_exists.
    rewrite bool_decide_eq_true_2
      by (apply elem_of_union_r, elem_of_union_l; now apply elem_of_singleton).
    assert (Hne : name1 <> name2 ->
                  in_dir (tmp_dir sv) name2 <> in_dir (tmp_dir sv) name1).
    { intros Hne E. apply Hne. unfold in_dir in E.
      apply (inj (String.append (tmp_dir sv))) in E.
      apply (inj (String.append "/")) in E. congruence. }
    generalize dependent (in_dir (tmp_dir sv) name2). intros p2 Hne.
    generalize dependent (in_dir (tmp_dir sv) name1). intros p1 Hne.
    destruct (remove_ok sv p1); split.
    + intros H. specialize (Hne H).
      apply elem_of_difference. split; [|now rewrite elem_of_singleton].
      apply elem_of_union_l. now apply elem_of_singleton.
    + intros _ H. apply elem_of_difference in H as [_ H].
      apply H. now apply elem_of_singleton.
    + intros _. apply elem_of_union_l. now apply elem_of_singleton.
    + discriminate.
Qed.

Lemma empty_upload_witness :
  (@upload_files example_runtime empty_template_request sample_server (fresh ∅ 0)).1
  = inr (Http {| status_code := 400; detail_message := "上傳的 Word 範本檔案為空。";
                 detail_type := "EmptyFile" |})
  /\ run_calls
       (@upload_files example_runtime empty_properties_request sample_server
          (fresh ∅ 0)).2 = [].
Proof.
  destruct (@empty_upload_is_refused_before_the_run example_runtime
              empty_template_request sample_server ∅ 0) as [H1 _].
  destruct (@empty_upload_is_refused_before_the_run example_runtime
              empty_properties_request sample_server ∅ 0) as [_ H2].
  split.
  - exact (proj1 (H1 "tmpa.docx" eq_refl eq_refl)).
  - refine (proj1 (proj2 (H2 "tmpa.docx" "tmpb.properties" _ eq_refl eq_refl
                            eq_refl eq_refl))).
    discriminate.
Defined.

End UploadMore.

Module UploadCleanup.
Import UploadFacts Upload UploadMore.

(** Once both uploads are stored, the two temporary files are gone when the
    handler ends, whether the run returns or raises, provided their removal
    succeeds; a removal that fails is passed over and leaves the file.  The
    output file is not removed. *)
Theorem temporary_files_are_removed {rt : PyRuntime}
    (req : Request) (sv : Server) (files : gset string) (open : nat)
    (name1 name2 : string) :
  word_template req <> EmptyString -> tmp_word sv = Ok name1 ->
  write_word sv = Ok () ->
  sql_properties req <> EmptyString -> tmp_props sv = Ok name2 ->
  write_props sv = Ok () ->
  let answer := upload_files req sv (fresh files open) in
  let p1 := in_dir (tmp_dir sv) name1 in
  let p2 := in_dir (tmp_dir sv) name2 in
  let out := in_dir (tmp_dir sv) output_filename in
  (remove_ok sv p1 = true -> p1 ∉ present_files answer.2)
  /\ (remove_ok sv p2 = true -> p2 ∉ present_files answer.2)
  /\ (remove_ok sv p1 = false -> p1 <> p2 -> p1 ∈ present_files answer.2)
  /\ (forall response, answer.1 = inl response ->
        out <> p1 -> out <> p2 -> out ∈ present_files answer.2).
Proof.
  intros Hw Hn1 Hw1 Hp Hn2 Hw2. cbv zeta.
  unfold upload_files, upload_body, store_upload, fresh, cleanup.
  rewrite Hn1, Hn2, Hw1, Hw2. cbn.
  rewrite (bool_decide_eq_false_2 _ Hw), (bool_decide_eq_false_2 _ Hp). cbn.
  generalize (in_dir (tmp_dir sv) name1) (in_dir (tmp_dir sv) name2)
             (in_dir (tmp_dir sv) output_filename).
  intros p1 p2 out.
  match goal with
  | |- context [generate_api_doc ?env (start open [])] =>
      destruct (generate_api_doc env (start open [])) as [[[]|e] s']
  end; cbn; unfold remove_if_exists;
    repeat case_bool_decide; destruct (remove_ok sv p1), (remove_ok sv p2);
    repeat split; intros; try discriminate; set_solver.
Qed.

Lemma temporary_files_witness :
  "/tmp/tmpa.docx" ∉
    present_files (@upload_files example_runtime sample_request sample_server
                     (fresh ∅ 0)).2.
Proof.
  refine (proj1 (@temporary_files_are_removed example_runtime sample_request
            sample_server ∅ 0 "tmpa.docx" "tmpb.properties" _ eq_refl eq_refl _
            eq_refl eq_refl) eq_refl); discriminate.
Defined.

(** A failure of the database, at the connection or at the first query, is
    answered with status 400 and type [DatabaseError], the text of the
    exception in the message; no connection stays open. *)
Theorem database_failure_is_answered_400 {rt : PyRuntime}
    (req : Request) (sv : Server) (files : gset string) (open : nat)
    (name1 name2 : string) :
  word_template req <> EmptyString -> tmp_word sv = Ok name1 ->
  write_word sv = Ok () ->
  sql_properties req <> EmptyString -> tmp_props sv = Ok name2 ->
  write_props sv = Ok () ->
  ds_connect (sv_db sv) = Raise DatabaseError \/
  (ds_connect (sv_db sv) = Ok () /\ ds_relevant (sv_db sv) = Raise DatabaseError) ->
  let answer := upload_files req sv (fresh files open) in
  answer.1 = inr (Http {| status_code := 400;
                          detail_message :=
                            "資料庫連線或查詢失敗: " +:+ exn_text sv DatabaseError;
                          detail_type := "DatabaseError" |})
  /\ db_open answer.2 = open.
Proof.
  intros Hw Hn1 Hw1 Hp Hn2 Hw2 Hdb. cbv zeta.
  unfold upload_files, upload_body, store_upload, fresh, cleanup.
  rewrite Hn1, Hn2, Hw1, Hw2. cbn.
  rewrite (bool_decide_eq_false_2 _ Hw), (bool_decide_eq_false_2 _ Hp). cbn.
  match goal with
  | |- context [generate_api_doc ?env (start open [])] =>
      pose proof (run_releases env open []) as Hrel;
      assert (Hrun : (generate_api_doc env (start open [])).1 = Raise DatabaseError)
        by (destruct Hdb as [H|[H1 H2]];
            [now apply run_connect_fails | now apply run_first_query_fails]);
      destruct (generate_api_doc env (start open [])) as [r s']
  end.
  cbn in *. subst r. cbn. auto.
Qed.

Lemma database_failure_witness :
  (@upload_files example_runtime sample_request refusing_server (fresh ∅ 0)).1
  = inr (Http {| status_code := 400;
                 detail_message := "資料庫連線或查詢失敗: login failed";
                 detail_type := "DatabaseError" |}).
Proof.
  refine (proj1 (@database_failure_is_answered_400 example_runtime sample_request
            refusing_server ∅ 0 "tmpa.docx" "tmpb.properties" _ eq_refl eq_refl _
            eq_refl eq_refl (or_introl eq_refl))); discriminate.
Defined.

End UploadCleanup.
